(** * AlgoTrader backtest service: the handler and its reshaping code

    A shallow embedding of [backtest-service/main.py] (the [/run-backtest]
    handler and the two strategy functions) and of the companion script
    [src/__tests__/stress_test_drawdown.py], with the properties their
    description states.

    The vectorised backtesting engine, pandas and the HTTP client are
    libraries outside the repository.  The engine is an interface
    ([Engine]) whose operations are the ones the source calls, each able to
    raise; what the code does with pandas (frame construction, the
    datetime index, sorting, [Timestamp.timestamp]) is written out. *)

From Stdlib Require Import ZArith QArith Qabs Qround List String Ascii Bool Lia.
From Stdlib Require Import Permutation Sorted.
From Stdlib Require Import PrimFloat FloatOps SpecFloat Uint63.
Import ListNotations.
Open Scope string_scope.
Open Scope list_scope.
Open Scope Z_scope.
Set Warnings "-register-all".

(** ** Python floats

    A Python [float] (and numpy's [float64]) is an IEEE binary64 number.
    A finite one is carried as the rational it denotes; [binary64] rounds a
    rational to the nearest representable one, ties to even, with gradual
    underflow and overflow to infinity.  The two zeros are identified. *)
Module PyFloat.

Inductive pyfloat : Type :=
| Fin (q : Q)
| PInf
| NInf
| NaN.

(** [2^e] as a rational, for any integer [e]. *)
Definition Qpow2 (e : Z) : Q :=
  if 0 <=? e then inject_Z (2 ^ e) else 1 # Z.to_pos (2 ^ (- e)).

(** Nearest integer, ties to the even one. *)
Definition round_half_even (x : Q) : Z :=
  let n := Qnum x in
  let d := Zpos (Qden x) in
  let fl := n / d in
  match 2 * (n mod d) ?= d with
  | Lt => fl
  | Gt => fl + 1
  | Eq => if Z.even fl then fl else fl + 1
  end.

(** [floor (log2 x)] for a positive rational. *)
Definition ilog2 (x : Q) : Z :=
  let k := Z.log2 (Qnum x) - Z.log2 (Zpos (Qden x)) in
  if Qle_bool (Qpow2 k) x then k else k - 1.

Definition prec : Z := 53.
Definition emin : Z := -1074.
Definition emax : Z := 1024.

(** Round to nearest binary64, ties to even. *)
Definition binary64 (x : Q) : pyfloat :=
  if Qeq_bool x 0 then Fin 0
  else
    let ax := Qabs x in
    let e := Z.max (ilog2 ax - (prec - 1)) emin in
    let m := round_half_even (ax / Qpow2 e)%Q in
    let r := (inject_Z m * Qpow2 e)%Q in
    if Qle_bool (Qpow2 emax) r
    then (if Qle_bool 0 x then PInf else NInf)
    else Fin (Qred (if Qle_bool 0 x then r else (- r)%Q)).

Definition sign_pos (q : Q) : bool := Qle_bool 0 q.

(** [x * y] on floats. *)
Definition fmul (x y : pyfloat) : pyfloat :=
  match x, y with
  | NaN, _ | _, NaN => NaN
  | Fin a, Fin b => binary64 (a * b)%Q
  | Fin a, PInf | PInf, Fin a =>
      if Qeq_bool a 0 then NaN else if sign_pos a then PInf else NInf
  | Fin a, NInf | NInf, Fin a =>
      if Qeq_bool a 0 then NaN else if sign_pos a then NInf else PInf
  | PInf, PInf | NInf, NInf => PInf
  | PInf, NInf | NInf, PInf => NInf
  end.

(** [x / y] on numpy floats: no exception, a zero divisor gives an
    infinity or nan. *)
Definition fdiv (x y : pyfloat) : pyfloat :=
  match x, y with
  | NaN, _ | _, NaN => NaN
  | Fin a, Fin b =>
      if Qeq_bool b 0
      then (if Qeq_bool a 0 then NaN else if sign_pos a then PInf else NInf)
      else binary64 (a / b)%Q
  | Fin _, (PInf | NInf) => Fin 0
  | PInf, Fin b => if sign_pos b then PInf else NInf
  | NInf, Fin b => if sign_pos b then NInf else PInf
  | (PInf | NInf), (PInf | NInf) => NaN
  end.

(** [x - y] on floats. *)
Definition fsub (x y : pyfloat) : pyfloat :=
  match x, y with
  | NaN, _ | _, NaN => NaN
  | Fin a, Fin b => binary64 (a - b)%Q
  | Fin _, PInf => NInf
  | Fin _, NInf => PInf
  | PInf, PInf | NInf, NInf => NaN
  | PInf, _ => PInf
  | NInf, _ => NInf
  end.

(** [abs(x)]. *)
Definition fabs (x : pyfloat) : pyfloat :=
  match x with
  | Fin a => Fin (Qabs a)
  | PInf | NInf => PInf
  | NaN => NaN
  end.

(** [x != 0]: true for nan and the infinities. *)
Definition fne0 (x : pyfloat) : bool :=
  match x with
  | Fin a => negb (Qeq_bool a 0)
  | _ => true
  end.

(** The float that [a / b] gives for two Python ints with [b <> 0]: the
    correctly rounded quotient.  The division itself, which raises for
    [b = 0], is [py_truediv] below. *)
Definition int_truediv (a b : Z) : pyfloat := binary64 (inject_Z a / inject_Z b)%Q.

(** [float(n)] for an int. *)
Definition float_of_int (n : Z) : pyfloat := binary64 (inject_Z n).

(** [round(x, 6)]: the decimal with six places nearest to the exact value
    of [x], ties to even, read back as a float. *)
Definition round6 (x : pyfloat) : pyfloat :=
  match x with
  | Fin a => binary64 (inject_Z (round_half_even (a * inject_Z 1000000)%Q) / inject_Z 1000000)%Q
  | _ => x
  end.

(** Truncation towards zero of a rational. *)
Definition Qtrunc (q : Q) : Z := Z.quot (Qnum q) (Zpos (Qden q)).

(** The rational a finite float stands for. *)
Definition finite_value (x : pyfloat) : option Q :=
  match x with
  | Fin q => Some q
  | _ => None
  end.

(** The same for the machine's own binary64 numbers (Rocq's primitive
    floats), to compare [binary64] with the hardware's rounding. *)
Definition machine_value (x : PrimFloat.float) : option Q :=
  match Prim2SF x with
  | S754_zero _ => Some 0%Q
  | S754_finite negative m e =>
      Some (Qred ((if negative then - inject_Z (Zpos m) else inject_Z (Zpos m)) * Qpow2 e)%Q)
  | _ => None
  end.

(** A machine float from a natural number below [2^53]. *)
Definition machine_of_int (n : Z) : PrimFloat.float :=
  PrimFloat.of_uint63 (Uint63.of_Z n).

End PyFloat.
Export PyFloat.

(** ** Exceptions, results and Python values *)

From Stdlib Require Import DecimalString.

(** A raised exception: the handler's own [HTTPException], or one raised by
    a library, with its class name and the text [str(e)] gives. *)
Inductive exn : Type :=
| HTTPException (status_code : Z) (detail : string)
| Raised (cls : string) (msg : string).

Inductive result (A : Type) : Type :=
| Ok (a : A)
| Err (e : exn).
Arguments Ok {A} a.
Arguments Err {A} e.

(** [str(n)] for an int. *)
Definition str_int (n : Z) : string := NilZero.string_of_int (Z.to_int n).

(** [str(e)]: Starlette's [HTTPException.__str__] gives
    ["<status_code>: <detail>"]. *)
Definition str_exn (e : exn) : string :=
  match e with
  | HTTPException status_code detail => str_int status_code ++ ": " ++ detail
  | Raised _ msg => msg
  end.

(** The values the handler puts into its result: what [Dict[str, Any]]
    holds.  A dict keeps its keys in insertion order. *)
Inductive pyval : Type :=
| VNone
| VInt (n : Z)
| VFloat (x : pyfloat)
| VStr (s : string)
| VList (l : list pyval)
| VDict (d : list (string * pyval)).

Definition pydict : Type := list (string * pyval).

(** [d[k]] as a lookup, [None] when the key is absent. *)
Fixpoint dict_get (d : pydict) (k : string) : option pyval :=
  match d with
  | [] => None
  | (k', v) :: d' => if String.eqb k' k then Some v else dict_get d' k
  end.

(** [d[k] = v]: an existing key keeps its place, a new one goes last. *)
Fixpoint dict_set (d : pydict) (k : string) (v : pyval) : pydict :=
  match d with
  | [] => [(k, v)]
  | (k', v') :: d' =>
      if String.eqb k' k then (k', v) :: d' else (k', v') :: dict_set d' k v
  end.

(** A number that is an int on one branch and a float on the other, as
    [win_rate], [avg_win] and the like are. *)
Inductive pynum : Type :=
| PInt (n : Z)
| PFloat (x : pyfloat).

(** [float(x)]. *)
Definition py_float (x : pynum) : pyfloat :=
  match x with
  | PInt n => float_of_int n
  | PFloat f => f
  end.

(** [x * n] for an int literal [n]. *)
Definition py_mul_int (x : pynum) (n : Z) : pynum :=
  match x with
  | PInt a => PInt (a * n)
  | PFloat f => PFloat (fmul f (float_of_int n))
  end.

(** [int(x)] on a float: truncation; infinities and nan raise. *)
Definition py_int (x : pyfloat) : result Z :=
  match x with
  | Fin q => Ok (Qtrunc q)
  | PInf | NInf => Err (Raised "OverflowError" "cannot convert float infinity to integer")
  | NaN => Err (Raised "ValueError" "cannot convert float NaN to integer")
  end.

(** [a / b] on two Python ints: [ZeroDivisionError] for a zero divisor,
    the correctly rounded quotient otherwise. *)
Definition py_truediv (a b : Z) : result pyfloat :=
  if b =? 0 then Err (Raised "ZeroDivisionError" "division by zero")
  else Ok (int_truediv a b).

(** [l[i]] with Python's indexing: a negative index counts from the end. *)
Definition py_index {A : Type} (l : list A) (i : Z) : result A :=
  let n := Z.of_nat (List.length l) in
  let j := if i <? 0 then n + i else i in
  if (0 <=? j) && (j <? n)
  then match nth_error l (Z.to_nat j) with
       | Some a => Ok a
       | None => Err (Raised "IndexError" "index out of bounds")
       end
  else Err (Raised "IndexError" "index out of bounds").

(** ** The wire schema (pydantic models) *)

Record Candle : Type := {
  timestamp : Z;
  open : pyfloat;
  high : pyfloat;
  low : pyfloat;
  close : pyfloat;
  volume : pyfloat
}.

Record StrategyParams : Type := {
  fast_window : Z;
  slow_window : Z;
  rsi_window : Z;
  rsi_oversold : Z;
  rsi_overbought : Z;
  stop_loss_pct : pyfloat;
  take_profit_pct : pyfloat;
  strategy_type : string;
  initial_capital : pyfloat;
  commission_pct : pyfloat
}.

Record BacktestRequest : Type := {
  candles : list Candle;
  strategy_params : StrategyParams;
  symbol : string;
  timeframe : string
}.

(** ** The pandas part of the handler *)

(** A frame row: the [date] index (nanoseconds since the epoch) and the
    candle's columns. *)
Definition Row : Type := (Z * Candle)%type.
Definition DataFrame : Type := list Row.

Definition date (r : Row) : Z := fst r.

(** [pd.to_datetime(ts, unit='ms')] on one value: the nanoseconds, when
    they fit the int64 range ([timestamp_in_range] below).  Outside that
    range what pandas does depends on its version and on the value (an
    [OutOfBoundsDatetime] with a message of its own, or [NaT] for the int64
    minimum); the model raises there, and the properties that speak of
    what a request computes are stated for timestamps in the range. *)
Definition to_datetime_ms (ms : Z) : result Z :=
  let ns := ms * 1000000 in
  if (- 2 ^ 63 <? ns) && (ns <? 2 ^ 63)
  then Ok ns
  else Err (Raised "OutOfBoundsDatetime" "cannot convert input with unit 'ms'").

Fixpoint to_datetime_rows (cs : list Candle) : result DataFrame :=
  match cs with
  | [] => Ok []
  | c :: cs' =>
      match to_datetime_ms (timestamp c) with
      | Err e => Err e
      | Ok ns =>
          match to_datetime_rows cs' with
          | Err e => Err e
          | Ok rows => Ok ((ns, c) :: rows)
          end
      end
  end.

(** Lines 81-83: the frame of the candles with the [date] index.  A frame
    built from no rows has no columns, so [df['timestamp']] raises. *)
Definition build_frame (cs : list Candle) : result DataFrame :=
  match cs with
  | [] => Err (Raised "KeyError" "'timestamp'")
  | _ => to_datetime_rows cs
  end.



(** [df.sort_index()]: rows in ascending index order; rows with equal
    index keep their wire order. *)
Fixpoint insert_row (r : Row) (df : DataFrame) : DataFrame :=
  match df with
  | [] => [r]
  | r' :: df' => if date r <=? date r' then r :: r' :: df' else r' :: insert_row r df'
  end.

Fixpoint sort_index (df : DataFrame) : DataFrame :=
  match df with
  | [] => []
  | r :: df' => insert_row r (sort_index df')
  end.

(** [df['close']]. *)
Definition col_close (df : DataFrame) : list pyfloat := map (fun r => close (snd r)) df.

(** [Timestamp.timestamp()]: [round(value / 10**9, 6)]. *)
Definition Timestamp_timestamp (ns : Z) : pyfloat :=
  round6 (int_truediv ns 1000000000).

(** [int(df.index[i].timestamp() * 1000)]. *)
Definition index_ms (df : DataFrame) (i : Z) : result Z :=
  match py_index df i with
  | Err e => Err e
  | Ok r => py_int (fmul (Timestamp_timestamp (date r)) (float_of_int 1000))
  end.

(** ** The engine interface

    What the handler asks of the vectorised backtesting library.  An
    indicator is carried as its output series, a signal as one boolean per
    bar. *)

Definition Indicator : Type := list pyfloat.
Definition Signals : Type := list bool.

(** The arguments of [Portfolio.from_signals], positional and keyword. *)
Record SimArgs : Type := {
  sim_close : list pyfloat;
  sim_entries : Signals;
  sim_exits : Signals;
  init_cash : pyfloat;
  fees : pyfloat;
  sl_stop : pyfloat;
  tp_stop : pyfloat
}.

(** One row of [trades.records_arr]. *)
Record TradeRecord : Type := {
  id : Z;
  entry_idx : Z;
  exit_idx : Z;
  direction : Z;
  entry_price : pyfloat;
  exit_price : pyfloat;
  size : pyfloat;
  pnl : pyfloat;
  return_ : pyfloat
}.

(** The reductions the handler takes of [win_pnl] and [lose_pnl]. *)
Record PnlArr : Type := {
  arr_mean : pyfloat;
  arr_max : pyfloat;
  arr_min : pyfloat;
  arr_sum : pyfloat
}.

(** [portfolio.trades]; the two counts are numbers of records. *)
Record Trades : Type := {
  records_arr : list TradeRecord;
  win_count : N;
  lose_count : N;
  win_pnl : PnlArr;
  lose_pnl : PnlArr
}.

(** A simulated portfolio: [stats] is what [portfolio.stats()] returns or
    raises, keyed by the statistic's name. *)
Record Portfolio : Type := {
  stats : result (list (string * pyfloat));
  equity : list pyfloat;
  trades : Trades
}.

Record Engine : Type := {
  MA_run : list pyfloat -> Z -> result Indicator;
  ma_above : Indicator -> Indicator -> result Signals;
  ma_below : Indicator -> Indicator -> result Signals;
  RSI_run : list pyfloat -> Z -> result Indicator;
  rsi_below : Indicator -> Z -> result Signals;
  rsi_above : Indicator -> Z -> result Signals;
  from_signals : SimArgs -> result Portfolio
}.

(** A call into the engine, with its arguments. *)
Inductive Event : Type :=
| CallMA (series : list pyfloat) (window : Z)
| CallAbove (fast slow : Indicator)
| CallBelow (fast slow : Indicator)
| CallRSI (series : list pyfloat) (window : Z)
| CallRsiBelow (rsi : Indicator) (level : Z)
| CallRsiAbove (rsi : Indicator) (level : Z)
| CallFromSignals (args : SimArgs).

(** ** Computations: the calls made so far and a value or an exception *)

Definition M (A : Type) : Type := (list Event * result A)%type.

Definition ret {A : Type} (a : A) : M A := ([], Ok a).
Definition raise {A : Type} (e : exn) : M A := ([], Err e).

Definition bind {A B : Type} (c : M A) (k : A -> M B) : M B :=
  match snd c with
  | Err e => (fst c, Err e)
  | Ok a => (fst c ++ fst (k a), snd (k a))
  end.

(** A library call: logged, then its outcome. *)
Definition call {A : Type} (ev : Event) (r : result A) : M A := ([ev], r).

(** A step that calls nothing. *)
Definition lift {A : Type} (r : result A) : M A := ([], r).

Definition calls {A : Type} (c : M A) : list Event := fst c.
Definition outcome {A : Type} (c : M A) : result A := snd c.

Notation "x <- c ;; k" := (bind c (fun x => k))
  (at level 61, c at next level, right associativity).

(** The same sequencing for steps that only return or raise. *)
Definition rbind {A B : Type} (r : result A) (k : A -> result B) : result B :=
  match r with
  | Ok a => k a
  | Err e => Err e
  end.

Notation "x <~ r ;; k" := (rbind r (fun x => k))
  (at level 61, r at next level, right associativity).

(** ** Reshaping the engine's output (lines 125-189 and 210-274) *)

(** Lines 130-135: one point per equity value, stamped with the index at
    the same position. *)
Fixpoint equity_curve_from (df : DataFrame) (i : nat) (values : list pyfloat)
  : result (list pyval) :=
  match values with
  | [] => Ok []
  | value :: rest =>
      ts <~ index_ms df (Z.of_nat i) ;;
      points <~ equity_curve_from df (S i) rest ;;
      Ok (VDict [("timestamp", VInt ts); ("value", VFloat value)] :: points)
  end.

Definition build_equity_curve (df : DataFrame) (pf : Portfolio) : result (list pyval) :=
  equity_curve_from df 0 (equity pf).

(** Lines 140-155: one trade as a dict.  The frame has no ['symbol']
    column, so [df.get('symbol', 'Unknown')] is the default. *)
Definition trade_dict (df : DataFrame) (trade : TradeRecord) : result pyval :=
  entry_time <~ index_ms df (entry_idx trade) ;;
  exit_time <~ (if negb (exit_idx trade =? -1)
                then (t <~ index_ms df (exit_idx trade) ;; Ok (VInt t))
                else Ok VNone) ;;
  Ok (VDict
        [("id", VStr (str_int (id trade)));
         ("symbol", VStr "Unknown");
         ("side", VStr (if direction trade >? 0 then "buy" else "sell"));
         ("entryTime", VInt entry_time);
         ("exitTime", exit_time);
         ("entryPrice", VFloat (entry_price trade));
         ("exitPrice", if fne0 (exit_price trade) then VFloat (exit_price trade) else VNone);
         ("quantity", VFloat (size trade));
         ("pnl", VFloat (pnl trade));
         ("pnlPercent", VFloat (fmul (return_ trade) (float_of_int 100)));
         ("status", VStr (if negb (exit_idx trade =? -1) then "closed" else "open"))]).

Fixpoint build_trade_list (df : DataFrame) (records : list TradeRecord)
  : result (list pyval) :=
  match records with
  | [] => Ok []
  | trade :: rest =>
      d <~ trade_dict df trade ;;
      ds <~ build_trade_list df rest ;;
      Ok (d :: ds)
  end.

(** Lines 158-169: the additional metrics. *)
Definition winning_trades (t : Trades) : Z := Z.of_N (win_count t).
Definition losing_trades (t : Trades) : Z := Z.of_N (lose_count t).
Definition total_trades (t : Trades) : Z := winning_trades t + losing_trades t.

Definition win_rate (t : Trades) : result pynum :=
  if total_trades t >? 0
  then (x <~ py_truediv (winning_trades t) (total_trades t) ;; Ok (PFloat x))
  else Ok (PInt 0).

(** What [win_rate] returns: the guard keeps the division from a zero
    divisor, so it never raises (lemma [win_rate_ok]). *)
Definition win_rate_of (t : Trades) : pynum :=
  if total_trades t >? 0
  then PFloat (int_truediv (winning_trades t) (total_trades t))
  else PInt 0.

Definition avg_win (t : Trades) : pynum :=
  if winning_trades t >? 0 then PFloat (arr_mean (win_pnl t)) else PInt 0.
Definition avg_loss (t : Trades) : pynum :=
  if losing_trades t >? 0 then PFloat (arr_mean (lose_pnl t)) else PInt 0.
Definition largest_win (t : Trades) : pynum :=
  if winning_trades t >? 0 then PFloat (arr_max (win_pnl t)) else PInt 0.
Definition largest_loss (t : Trades) : pynum :=
  if losing_trades t >? 0 then PFloat (arr_min (lose_pnl t)) else PInt 0.

Definition profit_factor (t : Trades) : pyfloat :=
  if fne0 (arr_sum (lose_pnl t))
  then fabs (fdiv (arr_sum (win_pnl t)) (arr_sum (lose_pnl t)))
  else PInf.

(** [stats[key]]. *)
Fixpoint stats_get (s : list (string * pyfloat)) (key : string) : result pyfloat :=
  match s with
  | [] => Err (Raised "KeyError" ("'" ++ key ++ "'"))
  | (k, v) :: s' => if String.eqb k key then Ok v else stats_get s' key
  end.

(** Lines 125-189: everything after the simulation, the same text in both
    strategy functions. *)
Definition summarize (df : DataFrame) (portfolio : Portfolio) : result pydict :=
  st <~ stats portfolio ;;
  let t := trades portfolio in
  equity_curve <~ build_equity_curve df portfolio ;;
  trade_list <~ build_trade_list df (records_arr t) ;;
  win_rate <~ win_rate t ;;
  total_return <~ stats_get st "Total Return" ;;
  total_return_pct <~ stats_get st "Total Return [%]" ;;
  sharpe_ratio <~ stats_get st "Sharpe Ratio" ;;
  max_drawdown <~ stats_get st "Max Drawdown" ;;
  max_drawdown_pct <~ stats_get st "Max Drawdown [%]" ;;
  Ok [("total_return", VFloat total_return);
      ("total_return_pct", VFloat total_return_pct);
      ("sharpe_ratio", VFloat sharpe_ratio);
      ("max_drawdown", VFloat max_drawdown);
      ("max_drawdown_pct", VFloat max_drawdown_pct);
      ("win_rate", VFloat (py_float (py_mul_int win_rate 100)));
      ("profit_factor", VFloat (profit_factor t));
      ("total_trades", VInt (total_trades t));
      ("winning_trades", VInt (winning_trades t));
      ("losing_trades", VInt (losing_trades t));
      ("avg_win", VFloat (py_float (avg_win t)));
      ("avg_loss", VFloat (py_float (avg_loss t)));
      ("largest_win", VFloat (py_float (largest_win t)));
      ("largest_loss", VFloat (py_float (largest_loss t)));
      ("equity_curve", VList equity_curve);
      ("trades", VList trade_list);
      ("execution_time", VInt 0)].

(** ** The two strategies and the handler *)

(** What the endpoint answers: the result dict, or an error response with
    its status and detail. *)
Inductive Response : Type :=
| Returned (body : pydict)
| Failed (status_code : Z) (detail : string).

Section Service.

Variable vbt : Engine.

(** The arguments lines 115-123 and 200-208 pass to the simulation. *)
Definition sim_args (df : DataFrame) (params : StrategyParams)
    (entries exits : Signals) : SimArgs :=
  {| sim_close := col_close df;
     sim_entries := entries;
     sim_exits := exits;
     init_cash := initial_capital params;
     fees := commission_pct params;
     sl_stop := stop_loss_pct params;
     tp_stop := take_profit_pct params |}.

Definition run_ma_crossover_strategy (df : DataFrame) (params : StrategyParams)
  : M pydict :=
  fast_ma <- call (CallMA (col_close df) (fast_window params))
                  (MA_run vbt (col_close df) (fast_window params)) ;;
  slow_ma <- call (CallMA (col_close df) (slow_window params))
                  (MA_run vbt (col_close df) (slow_window params)) ;;
  entries <- call (CallAbove fast_ma slow_ma) (ma_above vbt fast_ma slow_ma) ;;
  exits <- call (CallBelow fast_ma slow_ma) (ma_below vbt fast_ma slow_ma) ;;
  portfolio <- call (CallFromSignals (sim_args df params entries exits))
                    (from_signals vbt (sim_args df params entries exits)) ;;
  lift (summarize df portfolio).

Definition run_rsi_strategy (df : DataFrame) (params : StrategyParams)
  : M pydict :=
  rsi <- call (CallRSI (col_close df) (rsi_window params))
              (RSI_run vbt (col_close df) (rsi_window params)) ;;
  entries <- call (CallRsiBelow rsi (rsi_oversold params))
                  (rsi_below vbt rsi (rsi_oversold params)) ;;
  exits <- call (CallRsiAbove rsi (rsi_overbought params))
                (rsi_above vbt rsi (rsi_overbought params)) ;;
  portfolio <- call (CallFromSignals (sim_args df params entries exits))
                    (from_signals vbt (sim_args df params entries exits)) ;;
  lift (summarize df portfolio).

(** Lines 80-100, the body of the [try].  [start_time] and [end_time] are
    the two readings of [time.time()]. *)
Definition run_backtest_body (start_time end_time : pyfloat)
    (request : BacktestRequest) : M pydict :=
  df0 <- lift (build_frame (candles request)) ;;
  let df := sort_index df0 in
  let ty := strategy_type (strategy_params request) in
  result <- (if String.eqb ty "ma_crossover"
             then run_ma_crossover_strategy df (strategy_params request)
             else if String.eqb ty "rsi"
             then run_rsi_strategy df (strategy_params request)
             else raise (HTTPException 400
                           ("Strategy type '" ++ ty ++ "' not supported"))) ;;
  let execution_time := fsub end_time start_time in
  ret (dict_set result "execution_time" (VFloat execution_time)).

(** Lines 79-103: [except Exception] turns whatever the body raised into a
    500. *)
Definition respond (r : result pydict) : Response :=
  match r with
  | Ok result => Returned result
  | Err e => Failed 500 ("Backtest failed: " ++ str_exn e)
  end.

Definition run_backtest (start_time end_time : pyfloat)
    (request : BacktestRequest) : list Event * Response :=
  let c := run_backtest_body start_time end_time request in
  (calls c, respond (outcome c)).

End Service.

(** ** The stress-test script ([src/__tests__/stress_test_drawdown.py]) *)
Module StressTest.





















End StressTest.

(** ** Sample inputs: an engine, candles and requests to run the code on *)
Module Sample.

(** [StrategyParams] with pydantic's defaults and a given strategy. *)
Definition default_params (ty : string) : StrategyParams :=
  {| fast_window := 20;
     slow_window := 50;
     rsi_window := 14;
     rsi_oversold := 30;
     rsi_overbought := 70;
     stop_loss_pct := binary64 (2 # 100);
     take_profit_pct := binary64 (4 # 100);
     strategy_type := ty;
     initial_capital := Fin 10000;
     commission_pct := binary64 (1 # 1000) |}.

Definition candle_at (ts : Z) (price : Q) : Candle :=
  {| timestamp := ts;
     open := Fin price;
     high := Fin price;
     low := Fin price;
     close := Fin price;
     volume := Fin 1 |}.

Definition request_of (cs : list Candle) (ty : string) : BacktestRequest :=
  {| candles := cs;
     strategy_params := default_params ty;
     symbol := "BTC/USDT";
     timeframe := "15m" |}.

(** One winning trade of 30, entered on the first bar and closed on the
    last of [bars], and three losing ones of 5, 5 and 10. *)
Definition sample_trades (bars : nat) : Trades :=
  {| records_arr :=
       [ {| id := 0; entry_idx := 0; exit_idx := Z.of_nat bars - 1; direction := 0;
            entry_price := Fin 100; exit_price := Fin 130; size := Fin 1;
            pnl := Fin 30; return_ := Fin (3 # 10) |} ];
     win_count := 1%N;
     lose_count := 3%N;
     win_pnl := {| arr_mean := Fin 30; arr_max := Fin 30;
                   arr_min := Fin 30; arr_sum := Fin 30 |};
     lose_pnl := {| arr_mean := Fin (- 20 # 3); arr_max := Fin (- 5);
                    arr_min := Fin (- 10); arr_sum := Fin (- 20) |} |}.

Definition sample_stats : list (string * pyfloat) :=
  [("Total Return", Fin (1 # 10));
   ("Total Return [%]", Fin 10);
   ("Sharpe Ratio", Fin (6 # 5));
   ("Max Drawdown", Fin (1 # 20));
   ("Max Drawdown [%]", Fin 5)].

(** The portfolio the sample engine simulates: equity stays at the
    initial cash, one value per bar. *)
Definition sample_portfolio (args : SimArgs) : Portfolio :=
  {| stats := Ok sample_stats;
     equity := map (fun _ => init_cash args) (sim_close args);
     trades := sample_trades (List.length (sim_close args)) |}.

(** An engine whose indicators echo the series, whose signals are all
    false and whose simulation is [sample_portfolio]. *)
Definition sample_engine : Engine :=
  {| MA_run := fun series _ => Ok series;
     ma_above := fun fast _ => Ok (map (fun _ => false) fast);
     ma_below := fun fast _ => Ok (map (fun _ => false) fast);
     RSI_run := fun series _ => Ok series;
     rsi_below := fun rsi _ => Ok (map (fun _ => false) rsi);
     rsi_above := fun rsi _ => Ok (map (fun _ => false) rsi);
     from_signals := fun args => Ok (sample_portfolio args) |}.

(** Trades with given counts and PnL reductions and no record. *)
Definition trades_with (wins losses : N) (win lose : PnlArr) : Trades :=
  {| records_arr := [];
     win_count := wins;
     lose_count := losses;
     win_pnl := win;
     lose_pnl := lose |}.

(** The reductions of an empty PnL array: no mean, maximum or minimum,
    and the sum 0. *)
Definition empty_pnl : PnlArr :=
  {| arr_mean := NaN; arr_max := NaN; arr_min := NaN; arr_sum := Fin 0 |}.

Definition no_trades : Trades := trades_with 0 0 empty_pnl empty_pnl.

(** Two winning trades of 10 and 20, no losing one. *)
Definition only_winners : Trades :=
  trades_with 2 0
    {| arr_mean := Fin 15; arr_max := Fin 20; arr_min := Fin 10; arr_sum := Fin 30 |}
    empty_pnl.

(** Three losing trades of 5, 5 and 10, no winning one. *)
Definition only_losers : Trades :=
  trades_with 0 3 empty_pnl
    {| arr_mean := Fin (- 20 # 3); arr_max := Fin (- 5);
       arr_min := Fin (- 10); arr_sum := Fin (- 20) |}.

(** The sample engine with the simulation's trades replaced by [t]. *)
Definition engine_with (t : Trades) : Engine :=
  {| MA_run := MA_run sample_engine;
     ma_above := ma_above sample_engine;
     ma_below := ma_below sample_engine;
     RSI_run := RSI_run sample_engine;
     rsi_below := rsi_below sample_engine;
     rsi_above := rsi_above sample_engine;
     from_signals := fun args =>
       Ok {| stats := Ok sample_stats;
             equity := map (fun _ => init_cash args) (sim_close args);
             trades := t |} |}.

Definition two_candles : list Candle :=
  [candle_at 1700000900000 101; candle_at 1700000000000 100].


End Sample.

(** ** What the engine hands back, as plain floats

    Every float the handler can read off a portfolio: the statistics, the
    equity values, the reductions of the two PnL arrays, the two counts and
    the fields of the trade records. *)
Definition stats_values (pf : Portfolio) : list pyfloat :=
  match stats pf with
  | Ok st => map snd st
  | Err _ => []
  end.

Definition arr_values (a : PnlArr) : list pyfloat :=
  [arr_mean a; arr_max a; arr_min a; arr_sum a].

Definition record_values (r : TradeRecord) : list pyfloat :=
  [entry_price r; exit_price r; size r; pnl r; return_ r].

Definition engine_floats (pf : Portfolio) : list pyfloat :=
  stats_values pf ++ equity pf
    ++ arr_values (win_pnl (trades pf)) ++ arr_values (lose_pnl (trades pf))
    ++ [float_of_int (winning_trades (trades pf));
        float_of_int (losing_trades (trades pf))]
    ++ flat_map record_values (records_arr (trades pf)).


(** ** Readings of the description, as predicates on a run *)

(** The statistics fields that the description says come straight from the
    engine. *)
Definition statistics_keys : list string :=
  ["profit_factor"; "win_rate"; "avg_win"; "avg_loss"; "largest_win"; "largest_loss"].

(** "Produced by the engine's primitives, with no statistics math of the
    service's own": in a returned result each of these fields holds one of
    the floats the simulated portfolio hands back. *)
Definition statistics_delegated (vbt : Engine) (start_time end_time : pyfloat)
    (request : BacktestRequest) : Prop :=
  forall result args portfolio,
    snd (run_backtest vbt start_time end_time request) = Returned result ->
    In (CallFromSignals args) (fst (run_backtest vbt start_time end_time request)) ->
    from_signals vbt args = Ok portfolio ->
    forall key, In key statistics_keys ->
      exists x, dict_get result key = Some (VFloat x) /\ In x (engine_floats portfolio).





(** The timestamp the description promises for an equity point: the
    candle's own. *)
Definition equity_point_as_stated (c : Candle) (value : pyfloat) : pyval :=
  VDict [("timestamp", VInt (timestamp c)); ("value", VFloat value)].

(** ** Names used to state further properties *)

(** The fields of the response model [BacktestResult] (lines 48-65), in
    order. *)
Definition BacktestResult_fields : list string :=
  ["total_return"; "total_return_pct"; "sharpe_ratio"; "max_drawdown";
   "max_drawdown_pct"; "win_rate"; "profit_factor"; "total_trades";
   "winning_trades"; "losing_trades"; "avg_win"; "avg_loss"; "largest_win";
   "largest_loss"; "equity_curve"; "trades"; "execution_time"].

(** The fields the response model declares as [float] and as [int]. *)
Definition float_fields : list string :=
  ["total_return"; "total_return_pct"; "sharpe_ratio"; "max_drawdown";
   "max_drawdown_pct"; "win_rate"; "profit_factor"; "avg_win"; "avg_loss";
   "largest_win"; "largest_loss"; "execution_time"].

Definition int_fields : list string :=
  ["total_trades"; "winning_trades"; "losing_trades"].

(** The keys of a trade dict (lines 143-155), in order. *)
Definition trade_keys : list string :=
  ["id"; "symbol"; "side"; "entryTime"; "exitTime"; "entryPrice"; "exitPrice";
   "quantity"; "pnl"; "pnlPercent"; "status"].

(** [list(d.keys())]. *)
Definition dict_keys (d : pydict) : list string := map fst d.

(** The engine operation a call is made to. *)
Definition event_name (ev : Event) : string :=
  match ev with
  | CallMA _ _ => "MA.run"
  | CallAbove _ _ => "ma_above"
  | CallBelow _ _ => "ma_below"
  | CallRSI _ _ => "RSI.run"
  | CallRsiBelow _ _ => "rsi_below"
  | CallRsiAbove _ _ => "rsi_above"
  | CallFromSignals _ => "Portfolio.from_signals"
  end.

(** The calls of a moving-average run and of an RSI run that gets to its
    end, in order. *)
Definition ma_crossover_calls : list string :=
  ["MA.run"; "MA.run"; "ma_above"; "ma_below"; "Portfolio.from_signals"].

Definition rsi_calls : list string :=
  ["RSI.run"; "rsi_below"; "rsi_above"; "Portfolio.from_signals"].

(** The five statistics the result reads (lines 172-176). *)
Definition stats_keys : list string :=
  ["Total Return"; "Total Return [%]"; "Sharpe Ratio"; "Max Drawdown";
   "Max Drawdown [%]"].

(** A float that is not negative: nan, plus infinity or a finite value of
    at least zero. *)
Definition not_negative (x : pyfloat) : Prop :=
  match x with
  | Fin q => (0 <= q)%Q
  | PInf | NaN => True
  | NInf => False
  end.


(** * Properties *)

(** ** Rounding keeps a value below an integer bound *)
Section Rounding.

Lemma round_half_even_nonneg (x : Q) : (0 <= x)%Q -> 0 <= round_half_even x.
Proof.
  destruct x as [n d]. unfold Qle, round_half_even. cbn [Qnum Qden]. intros H.
  assert (Hn : 0 <= n) by lia.
  assert (Hfl : 0 <= n / Z.pos d) by (apply Z.div_pos; lia).
  destruct (2 * (n mod Z.pos d) ?= Z.pos d); [destruct (Z.even _) | | ]; lia.
Qed.

Lemma round_half_even_le (x : Q) (N : Z) :
  (x <= inject_Z N)%Q -> round_half_even x <= N.
Proof.
  destruct x as [n d]. unfold Qle, round_half_even, inject_Z. cbn [Qnum Qden]. intros H.
  pose proof (Z.div_mod n (Z.pos d) ltac:(lia)) as Hdm.
  pose proof (Z.mod_pos_bound n (Z.pos d) ltac:(lia)) as Hmod.
  assert (Hfl : n / Z.pos d <= N).
  { apply Z.div_le_upper_bound; lia. }
  assert (Hstep : 0 < n mod Z.pos d -> n / Z.pos d + 1 <= N) by nia.
  destruct (2 * (n mod Z.pos d) ?= Z.pos d) eqn:Hc.
  - apply Z.compare_eq_iff in Hc. destruct (Z.even _); lia.
  - lia.
  - apply Z.compare_gt_iff in Hc. lia.
Qed.

Lemma Qpow2_nonneg_exp (e : Z) : 0 <= e -> Qpow2 e = inject_Z (2 ^ e).
Proof. intros H. unfold Qpow2. destruct (0 <=? e) eqn:E; [reflexivity | lia]. Qed.

Lemma Qpow2_neg_exp (e : Z) : e < 0 -> Qpow2 e = 1 # Z.to_pos (2 ^ (- e)).
Proof. intros H. unfold Qpow2. destruct (0 <=? e) eqn:E; [lia | reflexivity]. Qed.

Lemma Qpow2_pos (e : Z) : (0 < Qpow2 e)%Q.
Proof.
  unfold Qpow2. destruct (0 <=? e) eqn:E.
  - unfold Qlt, inject_Z. simpl. assert (0 < 2 ^ e) by (apply Z.pow_pos_nonneg; lia). lia.
  - reflexivity.
Qed.

(** Dividing by [2^e] with [e <= 0] multiplies by the integer [2^(-e)]. *)
Lemma Qdiv_Qpow2_nonpos (x : Q) (e : Z) :
  e <= 0 -> (x / Qpow2 e == x * inject_Z (2 ^ (- e)))%Q.
Proof.
  intros He. assert (Hp : 0 < 2 ^ (- e)) by (apply Z.pow_pos_nonneg; lia).
  destruct (Z.eq_dec e 0) as [-> | Hne].
  - unfold Qpow2. simpl. field.
  - rewrite Qpow2_neg_exp by lia.
    unfold Qdiv, Qinv. simpl.
    destruct (2 ^ (- e)) eqn:E; try lia. simpl. reflexivity.
Qed.

Lemma Qmul_Qpow2_nonpos (m : Z) (e : Z) (B : Z) :
  e <= 0 -> 0 <= m <= B * 2 ^ (- e) ->
  (0 <= inject_Z m * Qpow2 e)%Q /\ (inject_Z m * Qpow2 e <= inject_Z B)%Q.
Proof.
  intros He [Hm0 HmB]. assert (Hp : 0 < 2 ^ (- e)) by (apply Z.pow_pos_nonneg; lia).
  destruct (Z.eq_dec e 0) as [-> | Hne].
  - unfold Qpow2. simpl in *. unfold Qle, Qmult, inject_Z. simpl. lia.
  - rewrite Qpow2_neg_exp by lia.
    unfold Qle, Qmult, inject_Z. simpl.
    rewrite Z2Pos.id by lia. lia.
Qed.

(** The exponent chosen for a positive value below [2^53] is not positive. *)
Lemma ilog2_le_52 (x : Q) (B : Z) :
  (0 < x)%Q -> (x <= inject_Z B)%Q -> B < 2 ^ 53 -> ilog2 x <= 52.
Proof.
  destruct x as [n d]. unfold Qlt, Qle, inject_Z, ilog2. cbn [Qnum Qden]. intros Hpos HB Hlt.
  assert (Hn : 0 < n) by lia.
  assert (Hnd : n <= 2 ^ 53 * Z.pos d) by nia.
  assert (Hk : Z.log2 n - Z.log2 (Z.pos d) <= 53).
  { pose proof (Z.log2_le_mono n (Z.pos d * 2 ^ 53) ltac:(lia)) as Hmono.
    rewrite Z.log2_mul_pow2 in Hmono by lia. lia. }
  destruct (Qle_bool (Qpow2 (Z.log2 n - Z.log2 (Z.pos d))) (n # d)) eqn:Hc; [| lia].
  apply Qle_bool_iff in Hc.
  destruct (Z_le_gt_dec (Z.log2 n - Z.log2 (Z.pos d)) 52) as [Hle | Hgt]; [exact Hle | exfalso].
  assert (Hk53 : Z.log2 n - Z.log2 (Z.pos d) = 53) by lia.
  rewrite Hk53 in Hc. rewrite Qpow2_nonneg_exp in Hc by lia.
  unfold Qle, inject_Z in Hc. simpl in Hc. nia.
Qed.

(** A value in [[0, B]], with [B] an integer below [2^53], rounds to a
    finite float in [[0, B]]. *)
Lemma binary64_range (x : Q) (B : Z) :
  (0 <= x)%Q -> (x <= inject_Z B)%Q -> 0 < B < 2 ^ 53 ->
  exists q, binary64 x = Fin q /\ (0 <= q)%Q /\ (q <= inject_Z B)%Q.
Proof.
  intros H0 HB HBr. unfold binary64.
  destruct (Qeq_bool x 0) eqn:Hz.
  - exists 0%Q. split; [reflexivity | split; [apply Qle_refl |]].
    unfold Qle, inject_Z. simpl. lia.
  - assert (Hpos : (0 < x)%Q).
    { apply Qeq_bool_neq in Hz. apply Qle_lteq in H0. destruct H0 as [H0 | H0]; [exact H0 |].
      exfalso. apply Hz. symmetry. exact H0. }
    assert (Habs : Qabs x = x).
    { destruct x as [n d]. unfold Qlt in Hpos. simpl in *. unfold Qabs.
      rewrite Z.abs_eq by lia. reflexivity. }
    rewrite Habs.
    set (e := Z.max (ilog2 x - (prec - 1)) emin).
    assert (He : e <= 0).
    { pose proof (ilog2_le_52 x B Hpos HB ltac:(lia)). unfold e, prec, emin. lia. }
    set (m := round_half_even (x / Qpow2 e)).
    assert (Hp : 0 < 2 ^ (- e)) by (apply Z.pow_pos_nonneg; lia).
    assert (Hm : 0 <= m <= B * 2 ^ (- e)).
    { unfold m. split.
      - apply round_half_even_nonneg. rewrite Qdiv_Qpow2_nonpos by exact He.
        apply Qmult_le_0_compat; [exact H0 |]. unfold Qle, inject_Z. simpl. lia.
      - apply round_half_even_le. rewrite Qdiv_Qpow2_nonpos by exact He.
        rewrite inject_Z_mult. apply Qmult_le_compat_r; [exact HB |].
        unfold Qle, inject_Z. simpl. lia. }
    destruct (Qmul_Qpow2_nonpos m e B He Hm) as [Hr0 HrB].
    assert (Hle : Qle_bool 0 x = true) by (apply Qle_bool_iff; exact H0).
    rewrite Hle.
    destruct (Qle_bool (Qpow2 emax) (inject_Z m * Qpow2 e)) eqn:Hov.
    + exfalso. apply Qle_bool_iff in Hov.
      assert (Hbig : (Qpow2 emax <= inject_Z B)%Q) by (eapply Qle_trans; eassumption).
      unfold emax in Hbig. rewrite Qpow2_nonneg_exp in Hbig by lia.
      rewrite <- Zle_Qle in Hbig.
      assert (2 ^ 53 <= 2 ^ 1024) by (apply Z.pow_le_mono_r; lia). lia.
    + eexists. split; [reflexivity |]. rewrite Qred_correct. split; assumption.
Qed.

End Rounding.

(** ** [binary64] against the machine's floats

    At the values the timestamp conversion goes through, [binary64] gives
    the numbers the hardware's binary64 division and multiplication give:
    [1001 / 1000 * 1000] is below 1001 there too. *)
Lemma binary64_matches_machine_floats :
  let m := machine_of_int in
  machine_value (PrimFloat.div (m 1001) (m 1000))
    = finite_value (int_truediv 1001 1000) /\
  machine_value (PrimFloat.mul (PrimFloat.div (m 1001) (m 1000)) (m 1000))
    = finite_value (fmul (int_truediv 1001 1000) (float_of_int 1000)) /\
  PrimFloat.ltb (PrimFloat.mul (PrimFloat.div (m 1001) (m 1000)) (m 1000)) (m 1001) = true /\
  machine_value (PrimFloat.mul (PrimFloat.div (m 1099016742593) (m 1000)) (m 1000))
    = finite_value (fmul (int_truediv 1099016742593 1000) (float_of_int 1000)) /\
  machine_value (PrimFloat.mul (PrimFloat.div (m 1700000000000) (m 1000)) (m 1000))
    = finite_value (fmul (int_truediv 1700000000000 1000) (float_of_int 1000)) /\
  machine_value (PrimFloat.mul (PrimFloat.div (m 1) (m 3)) (m 100))
    = finite_value (fmul (int_truediv 1 3) (float_of_int 100)).
Proof. vm_compute. repeat split; reflexivity. Qed.

(** ** Sequencing *)

Lemma rbind_ok_inv {A B : Type} (r : result A) (k : A -> result B) (b : B) :
  rbind r k = Ok b -> exists a, r = Ok a /\ k a = Ok b.
Proof. destruct r as [a | e]; simpl; [eauto | discriminate]. Qed.

Lemma bind_ok_inv {A B : Type} (c : M A) (k : A -> M B) (b : B) :
  outcome (bind c k) = Ok b ->
  exists a, outcome c = Ok a /\ outcome (k a) = Ok b.
Proof.
  unfold outcome, bind. destruct (snd c) as [a | e]; simpl; [eauto | discriminate].
Qed.

Lemma calls_bind_ok {A B : Type} (c : M A) (k : A -> M B) (a : A) :
  outcome c = Ok a -> calls (bind c k) = calls c ++ calls (k a).
Proof. unfold outcome, calls, bind. intros ->. reflexivity. Qed.

Lemma bind_lift_ok {A B : Type} (a : A) (k : A -> M B) :
  bind (lift (Ok a)) k = k a.
Proof. unfold bind, lift. simpl. destruct (k a); reflexivity. Qed.

Lemma bind_lift_err {A B : Type} (e : exn) (k : A -> M B) :
  bind (lift (Err e)) k = ([], Err e).
Proof. reflexivity. Qed.

(** Splits the hypothesis that a chain of [rbind]s returned. *)
Ltac split_rbind H :=
  repeat (let a := fresh "v" in
          let E := fresh "E" in
          apply rbind_ok_inv in H; destruct H as (a & E & H)).

(** ** Dictionaries *)


(** ** What a returned summary is made of *)

(** Line 161 never raises: the division is reached with a positive
    divisor only. *)
Lemma win_rate_ok (t : Trades) : win_rate t = Ok (win_rate_of t).
Proof.
  unfold win_rate, win_rate_of, py_truediv.
  destruct (total_trades t >? 0) eqn:Htot; [| reflexivity].
  replace (total_trades t =? 0) with false by (symmetry; apply Z.eqb_neq; lia).
  reflexivity.
Qed.

Lemma summarize_ok_inv (df : DataFrame) (pf : Portfolio) (base : pydict) :
  summarize df pf = Ok base ->
  exists st curve tl tr trp sr md mdp,
    stats pf = Ok st /\
    build_equity_curve df pf = Ok curve /\
    build_trade_list df (records_arr (trades pf)) = Ok tl /\
    stats_get st "Total Return" = Ok tr /\
    stats_get st "Total Return [%]" = Ok trp /\
    stats_get st "Sharpe Ratio" = Ok sr /\
    stats_get st "Max Drawdown" = Ok md /\
    stats_get st "Max Drawdown [%]" = Ok mdp /\
    base =
      [("total_return", VFloat tr);
       ("total_return_pct", VFloat trp);
       ("sharpe_ratio", VFloat sr);
       ("max_drawdown", VFloat md);
       ("max_drawdown_pct", VFloat mdp);
       ("win_rate", VFloat (py_float (py_mul_int (win_rate_of (trades pf)) 100)));
       ("profit_factor", VFloat (profit_factor (trades pf)));
       ("total_trades", VInt (total_trades (trades pf)));
       ("winning_trades", VInt (winning_trades (trades pf)));
       ("losing_trades", VInt (losing_trades (trades pf)));
       ("avg_win", VFloat (py_float (avg_win (trades pf))));
       ("avg_loss", VFloat (py_float (avg_loss (trades pf))));
       ("largest_win", VFloat (py_float (largest_win (trades pf))));
       ("largest_loss", VFloat (py_float (largest_loss (trades pf))));
       ("equity_curve", VList curve);
       ("trades", VList tl);
       ("execution_time", VInt 0)].
Proof.
  unfold summarize. rewrite win_rate_ok. cbn [rbind]. intros H. split_rbind H.
  inversion H; subst. repeat eexists; eassumption.
Qed.

(** ** What a run of each strategy is made of *)

(** The calls and the outcome of the moving-average strategy, by how far
    it got. *)
Lemma ma_strategy_ok_inv (vbt : Engine) (df : DataFrame) (p : StrategyParams)
    (base : pydict) :
  outcome (run_ma_crossover_strategy vbt df p) = Ok base ->
  exists fast slow entries exits pf,
    MA_run vbt (col_close df) (fast_window p) = Ok fast /\
    MA_run vbt (col_close df) (slow_window p) = Ok slow /\
    ma_above vbt fast slow = Ok entries /\
    ma_below vbt fast slow = Ok exits /\
    from_signals vbt (sim_args df p entries exits) = Ok pf /\
    summarize df pf = Ok base /\
    calls (run_ma_crossover_strategy vbt df p) =
      [CallMA (col_close df) (fast_window p);
       CallMA (col_close df) (slow_window p);
       CallAbove fast slow;
       CallBelow fast slow;
       CallFromSignals (sim_args df p entries exits)].
Proof.
  unfold run_ma_crossover_strategy, outcome, calls, bind, call, lift. simpl.
  destruct (MA_run vbt (col_close df) (fast_window p)) as [fast |] eqn:Hfast; simpl;
    [| discriminate].
  destruct (MA_run vbt (col_close df) (slow_window p)) as [slow |] eqn:Hslow; simpl;
    [| discriminate].
  destruct (ma_above vbt fast slow) as [entries |] eqn:Hen; simpl; [| discriminate].
  destruct (ma_below vbt fast slow) as [exits |] eqn:Hex; simpl; [| discriminate].
  destruct (from_signals vbt (sim_args df p entries exits)) as [pf |] eqn:Hpf; simpl;
    [| discriminate].
  intros H. exists fast, slow, entries, exits, pf. repeat split; auto.
Qed.

Lemma rsi_strategy_ok_inv (vbt : Engine) (df : DataFrame) (p : StrategyParams)
    (base : pydict) :
  outcome (run_rsi_strategy vbt df p) = Ok base ->
  exists rsi entries exits pf,
    RSI_run vbt (col_close df) (rsi_window p) = Ok rsi /\
    rsi_below vbt rsi (rsi_oversold p) = Ok entries /\
    rsi_above vbt rsi (rsi_overbought p) = Ok exits /\
    from_signals vbt (sim_args df p entries exits) = Ok pf /\
    summarize df pf = Ok base /\
    calls (run_rsi_strategy vbt df p) =
      [CallRSI (col_close df) (rsi_window p);
       CallRsiBelow rsi (rsi_oversold p);
       CallRsiAbove rsi (rsi_overbought p);
       CallFromSignals (sim_args df p entries exits)].
Proof.
  unfold run_rsi_strategy, outcome, calls, bind, call, lift. simpl.
  destruct (RSI_run vbt (col_close df) (rsi_window p)) as [rsi |] eqn:Hrsi; simpl; [| discriminate].
  destruct (rsi_below vbt rsi (rsi_oversold p)) as [entries |] eqn:Hen; simpl; [| discriminate].
  destruct (rsi_above vbt rsi (rsi_overbought p)) as [exits |] eqn:Hex; simpl; [| discriminate].
  destruct (from_signals vbt (sim_args df p entries exits)) as [pf |] eqn:Hpf; simpl;
    [| discriminate].
  intros H. exists rsi, entries, exits, pf. repeat split; auto.
Qed.

(** Whatever the moving-average strategy hands to the simulation is built
    from its own indicators and the request's parameters. *)
Lemma ma_strategy_simulation_args (vbt : Engine) (df : DataFrame) (p : StrategyParams)
    (args : SimArgs) :
  In (CallFromSignals args) (calls (run_ma_crossover_strategy vbt df p)) ->
  exists fast slow entries exits,
    MA_run vbt (col_close df) (fast_window p) = Ok fast /\
    MA_run vbt (col_close df) (slow_window p) = Ok slow /\
    ma_above vbt fast slow = Ok entries /\
    ma_below vbt fast slow = Ok exits /\
    args = sim_args df p entries exits.
Proof.
  unfold run_ma_crossover_strategy, calls, bind, call, lift. simpl.
  destruct (MA_run vbt (col_close df) (fast_window p)) as [fast |] eqn:Hfast; simpl;
    [| intros [H | []]; discriminate].
  destruct (MA_run vbt (col_close df) (slow_window p)) as [slow |] eqn:Hslow; simpl;
    [| intros [H | [H | []]]; discriminate].
  destruct (ma_above vbt fast slow) as [entries |] eqn:Hen; simpl;
    [| intros [H | [H | [H | []]]]; discriminate].
  destruct (ma_below vbt fast slow) as [exits |] eqn:Hex; simpl;
    [| intros [H | [H | [H | [H | []]]]]; discriminate].
  intros H.
  assert (Hargs : args = sim_args df p entries exits).
  { destruct (from_signals vbt (sim_args df p entries exits)); simpl in H;
      destruct H as [H | [H | [H | [H | [H | H]]]]]; try discriminate;
      try (inversion H; reflexivity); try contradiction. }
  exists fast, slow, entries, exits. repeat split; auto.
Qed.

Lemma rsi_strategy_simulation_args (vbt : Engine) (df : DataFrame) (p : StrategyParams)
    (args : SimArgs) :
  In (CallFromSignals args) (calls (run_rsi_strategy vbt df p)) ->
  exists rsi entries exits,
    RSI_run vbt (col_close df) (rsi_window p) = Ok rsi /\
    rsi_below vbt rsi (rsi_oversold p) = Ok entries /\
    rsi_above vbt rsi (rsi_overbought p) = Ok exits /\
    args = sim_args df p entries exits.
Proof.
  unfold run_rsi_strategy, calls, bind, call, lift. simpl.
  destruct (RSI_run vbt (col_close df) (rsi_window p)) as [rsi |] eqn:Hrsi; simpl;
    [| intros [H | []]; discriminate].
  destruct (rsi_below vbt rsi (rsi_oversold p)) as [entries |] eqn:Hen; simpl;
    [| intros [H | [H | []]]; discriminate].
  destruct (rsi_above vbt rsi (rsi_overbought p)) as [exits |] eqn:Hex; simpl;
    [| intros [H | [H | [H | []]]]; discriminate].
  intros H.
  assert (Hargs : args = sim_args df p entries exits).
  { destruct (from_signals vbt (sim_args df p entries exits)); simpl in H;
      destruct H as [H | [H | [H | [H | H]]]]; try discriminate;
      try (inversion H; reflexivity); try contradiction. }
  exists rsi, entries, exits. repeat split; auto.
Qed.

(** ** The handler, by cases *)

Section Handler.

Variable vbt : Engine.
Variables start_time end_time : pyfloat.
Variable request : BacktestRequest.


(** With a frame, a moving-average request is the strategy's run on the
    sorted frame, then the time stamp. *)
Lemma run_backtest_ma (df0 : DataFrame) :
  build_frame (candles request) = Ok df0 ->
  strategy_type (strategy_params request) = "ma_crossover" ->
  run_backtest_body vbt start_time end_time request
    = (result <- run_ma_crossover_strategy vbt (sort_index df0) (strategy_params request) ;;
       ret (dict_set result "execution_time" (VFloat (fsub end_time start_time)))).
Proof.
  intros H Hty. unfold run_backtest_body. rewrite H, bind_lift_ok.
  rewrite Hty. reflexivity.
Qed.

Lemma run_backtest_rsi (df0 : DataFrame) :
  build_frame (candles request) = Ok df0 ->
  strategy_type (strategy_params request) = "rsi" ->
  run_backtest_body vbt start_time end_time request
    = (result <- run_rsi_strategy vbt (sort_index df0) (strategy_params request) ;;
       ret (dict_set result "execution_time" (VFloat (fsub end_time start_time)))).
Proof.
  intros H Hty. unfold run_backtest_body. rewrite H, bind_lift_ok.
  rewrite Hty. reflexivity.
Qed.

(** With a frame, any other type is rejected before anything is called. *)
Lemma run_backtest_unsupported (df0 : DataFrame) :
  build_frame (candles request) = Ok df0 ->
  strategy_type (strategy_params request) <> "ma_crossover" ->
  strategy_type (strategy_params request) <> "rsi" ->
  run_backtest_body vbt start_time end_time request
    = ([], Err (HTTPException 400
                  ("Strategy type '" ++ strategy_type (strategy_params request)
                     ++ "' not supported"))).
Proof.
  intros H Hma Hrsi. unfold run_backtest_body. rewrite H, bind_lift_ok.
  apply String.eqb_neq in Hma, Hrsi. rewrite Hma, Hrsi. reflexivity.
Qed.

(** A returned result comes from one simulation of one of the two
    strategies on the sorted frame. *)
Lemma run_backtest_returned (d : pydict) :
  snd (run_backtest vbt start_time end_time request) = Returned d ->
  exists df0 args pf base,
    build_frame (candles request) = Ok df0 /\
    (strategy_type (strategy_params request) = "ma_crossover"
     \/ strategy_type (strategy_params request) = "rsi") /\
    In (CallFromSignals args) (fst (run_backtest vbt start_time end_time request)) /\
    from_signals vbt args = Ok pf /\
    summarize (sort_index df0) pf = Ok base /\
    d = dict_set base "execution_time" (VFloat (fsub end_time start_time)).
Proof.
  unfold run_backtest. cbn [fst snd]. intros Hret.
  destruct (build_frame (candles request)) as [df0 | e] eqn:Hframe.
  2:{ unfold run_backtest_body in Hret. rewrite Hframe in Hret. discriminate. }
  destruct (String.eqb (strategy_type (strategy_params request)) "ma_crossover") eqn:Hma.
  - apply String.eqb_eq in Hma.
    rewrite (run_backtest_ma df0 Hframe Hma) in *.
    destruct (outcome (run_ma_crossover_strategy vbt (sort_index df0) (strategy_params request)))
      as [base | e] eqn:Hout.
    + destruct (ma_strategy_ok_inv _ _ _ _ Hout)
        as (fast & slow & entries & exits & pf & _ & _ & _ & _ & Hpf & Hsum & Hcalls).
      exists df0, (sim_args (sort_index df0) (strategy_params request) entries exits), pf, base.
      rewrite (calls_bind_ok _ _ _ Hout), Hcalls.
      unfold outcome, bind in Hret. unfold outcome in Hout. rewrite Hout in Hret.
      simpl in Hret. inversion Hret.
      repeat split; auto. simpl. auto 10.
    + unfold outcome, bind in Hret. unfold outcome in Hout. rewrite Hout in Hret.
      discriminate.
  - destruct (String.eqb (strategy_type (strategy_params request)) "rsi") eqn:Hrsi.
    + apply String.eqb_eq in Hrsi.
      rewrite (run_backtest_rsi df0 Hframe Hrsi) in *.
      destruct (outcome (run_rsi_strategy vbt (sort_index df0) (strategy_params request)))
        as [base | e] eqn:Hout.
      * destruct (rsi_strategy_ok_inv _ _ _ _ Hout)
          as (rsi & entries & exits & pf & _ & _ & _ & Hpf & Hsum & Hcalls).
        exists df0, (sim_args (sort_index df0) (strategy_params request) entries exits), pf, base.
        rewrite (calls_bind_ok _ _ _ Hout), Hcalls.
        unfold outcome, bind in Hret. unfold outcome in Hout. rewrite Hout in Hret.
        simpl in Hret. inversion Hret.
        repeat split; auto. simpl. auto 10.
      * unfold outcome, bind in Hret. unfold outcome in Hout. rewrite Hout in Hret.
        discriminate.
    + apply String.eqb_neq in Hma, Hrsi.
      rewrite (run_backtest_unsupported df0 Hframe Hma Hrsi) in Hret. discriminate.
Qed.

End Handler.

Lemma calls_bind_ret {A B : Type} (c : M A) (f : A -> B) :
  calls (bind c (fun x => ret (f x))) = calls c.
Proof.
  unfold calls, bind, ret. destruct (snd c); simpl; [apply app_nil_r | reflexivity].
Qed.

(** ** The response fields (C3) *)

(** C3: for every request that succeeds, the returned object holds the
    returns ([total_return], [total_return_pct]), the drawdown
    ([max_drawdown], [max_drawdown_pct]), the win rate ([win_rate]), the
    trade list ([trades]) and the equity curve ([equity_curve]). *)
Theorem C3_returned_fields_present (vbt : Engine) (start_time end_time : pyfloat)
    (request : BacktestRequest) (result : pydict) :
  snd (run_backtest vbt start_time end_time request) = Returned result ->
  exists tr trp md mdp wr tl curve,
    dict_get result "total_return" = Some (VFloat tr) /\
    dict_get result "total_return_pct" = Some (VFloat trp) /\
    dict_get result "max_drawdown" = Some (VFloat md) /\
    dict_get result "max_drawdown_pct" = Some (VFloat mdp) /\
    dict_get result "win_rate" = Some (VFloat wr) /\
    dict_get result "trades" = Some (VList tl) /\
    dict_get result "equity_curve" = Some (VList curve).
Proof.
  intros Hret.
  destruct (run_backtest_returned _ _ _ _ _ Hret)
    as (df0 & args & pf & base & _ & _ & _ & _ & Hsum & ->).
  destruct (summarize_ok_inv _ _ _ Hsum)
    as (st & curve & tl & tr & trp & sr & md & mdp & _ & _ & _ & _ & _ & _ & _ & _ & ->).
  exists tr, trp, md, mdp, (py_float (py_mul_int (win_rate_of (trades pf)) 100)), tl, curve.
  repeat split; reflexivity.
Qed.

Lemma C3_returned_fields_present_witness :
  exists result,
    snd (run_backtest Sample.sample_engine (Fin 1) (Fin 3)
           (Sample.request_of Sample.two_candles "ma_crossover")) = Returned result /\
    exists tr trp md mdp wr tl curve,
      dict_get result "total_return" = Some (VFloat tr) /\
      dict_get result "total_return_pct" = Some (VFloat trp) /\
      dict_get result "max_drawdown" = Some (VFloat md) /\
      dict_get result "max_drawdown_pct" = Some (VFloat mdp) /\
      dict_get result "win_rate" = Some (VFloat wr) /\
      dict_get result "trades" = Some (VList tl) /\
      dict_get result "equity_curve" = Some (VList curve).
Proof.
  eexists. split.
  - vm_compute. reflexivity.
  - apply (C3_returned_fields_present Sample.sample_engine (Fin 1) (Fin 3)
             (Sample.request_of Sample.two_candles "ma_crossover")).
    vm_compute. reflexivity.
Defined.

(** ** What is handed to the simulation (C4, C5) *)





(** ** Failures (C8) *)

(** C8: whatever fails inside the handler is answered with status 500 and
    a detail that starts with ["Backtest failed: "].  That includes an
    unsupported strategy type: its rejection is raised with status 400
    inside the [try], caught by the generic handler and wrapped, so the
    endpoint never answers 400. *)
Theorem C8_failures_are_wrapped_as_500 (vbt : Engine) (start_time end_time : pyfloat)
    (request : BacktestRequest) :
  let ty := strategy_type (strategy_params request) in
  let body := run_backtest_body vbt start_time end_time request in
  let response := snd (run_backtest vbt start_time end_time request) in
  (forall e, outcome body = Err e ->
     response = Failed 500 ("Backtest failed: " ++ str_exn e)) /\
  (ty <> "ma_crossover" -> ty <> "rsi" ->
     (exists e, outcome body = Err e) /\
     (forall df0, build_frame (candles request) = Ok df0 ->
        outcome body = Err (HTTPException 400 ("Strategy type '" ++ ty ++ "' not supported")) /\
        response = Failed 500
                     ("Backtest failed: 400: Strategy type '" ++ ty ++ "' not supported"))) /\
  (forall status detail, response = Failed status detail ->
     status = 500 /\ status <> 400 /\ exists msg, detail = ("Backtest failed: " ++ msg)%string).
Proof.
  intros ty body response. subst response. unfold run_backtest. cbn [snd].
  fold body. repeat split.
  - intros e He. rewrite He. reflexivity.
  - destruct (build_frame (candles request)) as [df0 | e] eqn:Hframe.
    + exists (HTTPException 400 ("Strategy type '" ++ ty ++ "' not supported")).
      subst body. rewrite (run_backtest_unsupported vbt _ _ _ df0 Hframe H H0). reflexivity.
    + exists e. subst body. unfold run_backtest_body. rewrite Hframe. reflexivity.
  - subst body. rewrite (run_backtest_unsupported vbt _ _ _ df0 H1 H H0). reflexivity.
  - subst body. rewrite (run_backtest_unsupported vbt _ _ _ df0 H1 H H0). reflexivity.
  - destruct (outcome body); simpl in H; [discriminate | inversion H; reflexivity].
  - destruct (outcome body); simpl in H; [discriminate | inversion H; lia].
  - destruct (outcome body) as [r | e]; simpl in H; [discriminate |].
    inversion H. exists (str_exn e). reflexivity.
Qed.

Lemma C8_failures_are_wrapped_as_500_witness :
  snd (run_backtest Sample.sample_engine (Fin 1) (Fin 3)
         (Sample.request_of Sample.two_candles "macd"))
    = Failed 500 "Backtest failed: 400: Strategy type 'macd' not supported".
Proof.
  destruct (C8_failures_are_wrapped_as_500 Sample.sample_engine (Fin 1) (Fin 3)
              (Sample.request_of Sample.two_candles "macd"))
    as (_ & Hunsupported & _).
  destruct (Hunsupported ltac:(discriminate) ltac:(discriminate)) as [_ Hframe].
  exact (proj2 (Hframe _ ltac:(vm_compute; reflexivity))).
Defined.

(** ** The statistics (C9, C1) *)

Lemma float_of_int_100 : float_of_int 100 = Fin 100.
Proof. vm_compute. reflexivity. Qed.

Lemma float_of_int_0 : float_of_int 0 = Fin 0.
Proof. reflexivity. Qed.

(** The win rate in percent is a finite float between 0 and 100. *)
Lemma win_rate_range (t : Trades) :
  exists q, py_float (py_mul_int (win_rate_of t) 100) = Fin q /\ (0 <= q)%Q /\ (q <= 100)%Q.
Proof.
  unfold win_rate_of. destruct (total_trades t >? 0) eqn:Htot.
  - assert (Hw : 0 <= winning_trades t) by (unfold winning_trades; lia).
    assert (Hl : 0 <= losing_trades t) by (unfold losing_trades; lia).
    assert (Ht : 0 < total_trades t) by lia.
    assert (Hwt : winning_trades t <= total_trades t) by (unfold total_trades; lia).
    assert (Htq : (0 < inject_Z (total_trades t))%Q).
    { rewrite <- (Zlt_Qlt 0). exact Ht. }
    destruct (binary64_range (inject_Z (winning_trades t) / inject_Z (total_trades t)) 1)
      as (q1 & Hq1 & Hq1lo & Hq1hi).
    + apply Qle_shift_div_l; [exact Htq |]. rewrite Qmult_0_l.
      rewrite <- (Zle_Qle 0). exact Hw.
    + apply Qle_shift_div_r; [exact Htq |]. rewrite Qmult_1_l.
      rewrite <- Zle_Qle. exact Hwt.
    + lia.
    + unfold int_truediv. rewrite Hq1. cbn [py_mul_int py_float fmul].
      rewrite float_of_int_100. cbn [fmul].
      destruct (binary64_range (q1 * 100) 100) as (q & Hq & Hqlo & Hqhi).
      * apply Qmult_le_0_compat; [exact Hq1lo | discriminate].
      * setoid_replace (inject_Z 100) with (1 * 100)%Q by reflexivity.
        apply Qmult_le_compat_r; [exact Hq1hi | discriminate].
      * lia.
      * exists q. repeat split; assumption.
  - exists 0%Q. repeat split; try reflexivity; discriminate.
Qed.

(** Whatever makes the summary fail, it is not the metrics of lines
    158-169: the exception comes from [stats()], from an index lookup of
    the equity or trade loop, or from a missing statistic. *)
Lemma summarize_err_inv (df : DataFrame) (pf : Portfolio) (e : exn) :
  summarize df pf = Err e ->
  stats pf = Err e \/
  build_equity_curve df pf = Err e \/
  build_trade_list df (records_arr (trades pf)) = Err e \/
  exists st key, stats pf = Ok st /\ In key stats_keys /\ stats_get st key = Err e.
Proof.
  unfold summarize. rewrite win_rate_ok.
  destruct (stats pf) as [st |] eqn:Hst; cbn [rbind];
    [| intros H; inversion H; left; reflexivity].
  destruct (build_equity_curve df pf) as [curve |] eqn:Hc; cbn [rbind];
    [| intros H; inversion H; right; left; reflexivity].
  destruct (build_trade_list df (records_arr (trades pf))) as [tl |] eqn:Ht; cbn [rbind];
    [| intros H; inversion H; right; right; left; reflexivity].
  intros H. right. right. right. exists st. unfold stats_keys.
  destruct (stats_get st "Total Return") eqn:H1; cbn [rbind] in H;
    [| inversion H; subst; exists "Total Return"; simpl; auto 10].
  destruct (stats_get st "Total Return [%]") eqn:H2; cbn [rbind] in H;
    [| inversion H; subst; exists "Total Return [%]"; simpl; auto 10].
  destruct (stats_get st "Sharpe Ratio") eqn:H3; cbn [rbind] in H;
    [| inversion H; subst; exists "Sharpe Ratio"; simpl; auto 10].
  destruct (stats_get st "Max Drawdown") eqn:H4; cbn [rbind] in H;
    [| inversion H; subst; exists "Max Drawdown"; simpl; auto 10].
  destruct (stats_get st "Max Drawdown [%]") eqn:H5; cbn [rbind] in H;
    [discriminate | inversion H; subst; exists "Max Drawdown [%]"; simpl; auto 10].
Qed.

(** C9: in every returned result [total_trades] is [winning_trades] plus
    [losing_trades] and [win_rate] lies in [0, 100]; the divisions are
    guarded.  The integer division of line 161 would raise at zero trades,
    and the guard gives 0 instead: [win_rate] never raises, and no failure
    of the summary comes from the metrics.  With no closed trade
    [win_rate], [avg_win], [avg_loss], [largest_win] and [largest_loss] are
    0, and when the losing PnL sums to zero [profit_factor] is positive
    infinity without a division. *)
Theorem C9_statistics_are_guarded (vbt : Engine) (start_time end_time : pyfloat)
    (request : BacktestRequest) :
  (forall t : Trades, total_trades t = 0 ->
     py_truediv (winning_trades t) (total_trades t)
       = Err (Raised "ZeroDivisionError" "division by zero") /\
     win_rate t = Ok (PInt 0)) /\
  (forall t : Trades, exists x, win_rate t = Ok x) /\
  (forall df pf e, summarize df pf = Err e ->
     stats pf = Err e \/
     build_equity_curve df pf = Err e \/
     build_trade_list df (records_arr (trades pf)) = Err e \/
     exists st key, stats pf = Ok st /\ In key stats_keys /\ stats_get st key = Err e) /\
  (forall result,
     snd (run_backtest vbt start_time end_time request) = Returned result ->
     exists args portfolio,
       In (CallFromSignals args) (fst (run_backtest vbt start_time end_time request)) /\
       from_signals vbt args = Ok portfolio /\
       let t := trades portfolio in
       let w := Z.of_N (win_count t) in
       let l := Z.of_N (lose_count t) in
       dict_get result "winning_trades" = Some (VInt w) /\
       dict_get result "losing_trades" = Some (VInt l) /\
       dict_get result "total_trades" = Some (VInt (w + l)) /\
       (exists q, dict_get result "win_rate" = Some (VFloat (Fin q))
                  /\ (0 <= q)%Q /\ (q <= 100)%Q) /\
       (w + l = 0 ->
          dict_get result "win_rate" = Some (VFloat (Fin 0)) /\
          dict_get result "avg_win" = Some (VFloat (Fin 0)) /\
          dict_get result "avg_loss" = Some (VFloat (Fin 0)) /\
          dict_get result "largest_win" = Some (VFloat (Fin 0)) /\
          dict_get result "largest_loss" = Some (VFloat (Fin 0))) /\
       (fne0 (arr_sum (lose_pnl t)) = false ->
          dict_get result "profit_factor" = Some (VFloat PInf))).
Proof.
  split; [| split; [| split]].
  - intros t Hzero. split.
    + unfold py_truediv. rewrite Hzero. reflexivity.
    + rewrite win_rate_ok. unfold win_rate_of. rewrite Hzero. reflexivity.
  - intros t. rewrite win_rate_ok. eauto.
  - apply summarize_err_inv.
  - intros result Hret.
    destruct (run_backtest_returned _ _ _ _ _ Hret)
      as (df0 & args & pf & base & _ & _ & Hin & Hpf & Hsum & ->).
    destruct (summarize_ok_inv _ _ _ Hsum)
      as (st & curve & tl & tr & trp & sr & md & mdp & _ & _ & _ & _ & _ & _ & _ & _ & ->).
    exists args, pf. split; [exact Hin |]. split; [exact Hpf |]. cbn zeta.
    split; [reflexivity |]. split; [reflexivity |]. split; [reflexivity |].
    split; [| split].
    + destruct (win_rate_range (trades pf)) as (q & Hq & Hlo & Hhi).
      exists q. split; [| split; assumption].
      cbn. rewrite Hq. reflexivity.
    + intros Hzero.
      assert (Hw : winning_trades (trades pf) = 0)
        by (unfold winning_trades; lia).
      assert (Hl : losing_trades (trades pf) = 0)
        by (unfold losing_trades; lia).
      cbn. unfold win_rate_of, avg_win, avg_loss, largest_win, largest_loss, total_trades.
      rewrite Hw, Hl. repeat split; reflexivity.
    + intros Hsumz. cbn. unfold profit_factor. rewrite Hsumz. reflexivity.
Qed.

(** The guards at work: with an engine that closed no trade the request
    succeeds, [win_rate] and [avg_win] are 0 and [profit_factor] is
    infinity. *)
Lemma C9_statistics_are_guarded_witness :
  exists result,
    snd (run_backtest (Sample.engine_with Sample.no_trades) (Fin 1) (Fin 3)
           (Sample.request_of Sample.two_candles "rsi")) = Returned result /\
    dict_get result "total_trades" = Some (VInt 0) /\
    dict_get result "win_rate" = Some (VFloat (Fin 0)) /\
    dict_get result "avg_win" = Some (VFloat (Fin 0)) /\
    dict_get result "profit_factor" = Some (VFloat PInf).
Proof.
  eexists. split; [vm_compute; reflexivity |].
  destruct (C9_statistics_are_guarded (Sample.engine_with Sample.no_trades) (Fin 1) (Fin 3)
              (Sample.request_of Sample.two_candles "rsi")) as (_ & _ & _ & Hreturned).
  destruct (Hreturned _ ltac:(vm_compute; reflexivity))
    as (args & pf & Hin & Hpf & _ & _ & Htotal & _ & Hzero & Hinf).
  vm_compute in Hin.
  repeat (destruct Hin as [Hin | Hin]; [try discriminate |]); [| contradiction].
  inversion Hin; subst args. vm_compute in Hpf. inversion Hpf; subst pf.
  destruct (Hzero eq_refl) as (Hrate & Havg & _).
  split; [exact Htotal |]. split; [exact Hrate |]. split; [exact Havg |].
  exact (Hinf eq_refl).
Defined.

(** C1, as the description has it, fails: on the sample run the
    [win_rate] field is 25, a number the engine never handed back (it
    returned the counts 1 and 3); the service computed it. *)
Lemma C1_statistics_delegated_counterexample :
  ~ statistics_delegated Sample.sample_engine (Fin 1) (Fin 3)
      (Sample.request_of Sample.two_candles "ma_crossover").
Proof.
  unfold statistics_delegated. intros H.
  remember (snd (run_backtest Sample.sample_engine (Fin 1) (Fin 3)
                   (Sample.request_of Sample.two_candles "ma_crossover"))) as resp eqn:Hresp.
  remember (fst (run_backtest Sample.sample_engine (Fin 1) (Fin 3)
                   (Sample.request_of Sample.two_candles "ma_crossover"))) as tr eqn:Htr.
  vm_compute in Hresp. vm_compute in Htr. subst resp tr.
  specialize (H _ _ _ eq_refl
                (or_intror (or_intror (or_intror (or_intror (or_introl eq_refl)))))
                eq_refl "win_rate" (or_intror (or_introl eq_refl))).
  destruct H as (x & Hget & Hin).
  vm_compute in Hget. inversion Hget; subst x.
  vm_compute in Hin.
  repeat (destruct Hin as [Hin | Hin]; [discriminate |]).
  exact Hin.
Qed.

(** C1, amended: the return, drawdown and Sharpe fields are the engine's
    statistics and the two counts are the engine's counts, unchanged; the
    service itself computes [total_trades] as their sum, [win_rate] as
    [100 * wins / total] (0 without trades) and [profit_factor] as the
    absolute ratio of the two PnL sums (infinity when the losing sum is
    zero), and it takes [avg_win], [avg_loss], [largest_win] and
    [largest_loss] from the engine's mean, maximum and minimum only when the
    respective count is positive, putting 0 otherwise. *)
Theorem C1_statistics_computed_from_engine_outputs (vbt : Engine)
    (start_time end_time : pyfloat) (request : BacktestRequest) (result : pydict) :
  snd (run_backtest vbt start_time end_time request) = Returned result ->
  exists args portfolio st,
    In (CallFromSignals args) (fst (run_backtest vbt start_time end_time request)) /\
    from_signals vbt args = Ok portfolio /\
    stats portfolio = Ok st /\
    let t := trades portfolio in
    let w := Z.of_N (win_count t) in
    let l := Z.of_N (lose_count t) in
    (exists x, stats_get st "Total Return" = Ok x
               /\ dict_get result "total_return" = Some (VFloat x)) /\
    (exists x, stats_get st "Total Return [%]" = Ok x
               /\ dict_get result "total_return_pct" = Some (VFloat x)) /\
    (exists x, stats_get st "Sharpe Ratio" = Ok x
               /\ dict_get result "sharpe_ratio" = Some (VFloat x)) /\
    (exists x, stats_get st "Max Drawdown" = Ok x
               /\ dict_get result "max_drawdown" = Some (VFloat x)) /\
    (exists x, stats_get st "Max Drawdown [%]" = Ok x
               /\ dict_get result "max_drawdown_pct" = Some (VFloat x)) /\
    dict_get result "winning_trades" = Some (VInt w) /\
    dict_get result "losing_trades" = Some (VInt l) /\
    dict_get result "total_trades" = Some (VInt (w + l)) /\
    dict_get result "win_rate"
      = Some (VFloat (if w + l >? 0 then fmul (int_truediv w (w + l)) (Fin 100)
                      else Fin 0)) /\
    dict_get result "profit_factor"
      = Some (VFloat (if fne0 (arr_sum (lose_pnl t))
                      then fabs (fdiv (arr_sum (win_pnl t)) (arr_sum (lose_pnl t)))
                      else PInf)) /\
    dict_get result "avg_win"
      = Some (VFloat (if w >? 0 then arr_mean (win_pnl t) else Fin 0)) /\
    dict_get result "avg_loss"
      = Some (VFloat (if l >? 0 then arr_mean (lose_pnl t) else Fin 0)) /\
    dict_get result "largest_win"
      = Some (VFloat (if w >? 0 then arr_max (win_pnl t) else Fin 0)) /\
    dict_get result "largest_loss"
      = Some (VFloat (if l >? 0 then arr_min (lose_pnl t) else Fin 0)).
Proof.
  intros Hret.
  destruct (run_backtest_returned _ _ _ _ _ Hret)
    as (df0 & args & pf & base & _ & _ & Hin & Hpf & Hsum & ->).
  destruct (summarize_ok_inv _ _ _ Hsum)
    as (st & curve & tl & tr & trp & sr & md & mdp
        & Hst & _ & _ & Htr & Htrp & Hsr & Hmd & Hmdp & ->).
  exists args, pf, st. split; [exact Hin |]. split; [exact Hpf |]. split; [exact Hst |].
  cbn zeta.
  split; [exists tr; split; [exact Htr | reflexivity] |].
  split; [exists trp; split; [exact Htrp | reflexivity] |].
  split; [exists sr; split; [exact Hsr | reflexivity] |].
  split; [exists md; split; [exact Hmd | reflexivity] |].
  split; [exists mdp; split; [exact Hmdp | reflexivity] |].
  split; [reflexivity |]. split; [reflexivity |]. split; [reflexivity |].
  cbn [dict_get String.eqb Ascii.eqb Bool.eqb].
  unfold win_rate_of, avg_win, avg_loss, largest_win, largest_loss, profit_factor,
    total_trades, winning_trades, losing_trades.
  repeat split.
  - destruct (Z.of_N (win_count (trades pf)) + Z.of_N (lose_count (trades pf)) >? 0);
      cbn [py_mul_int py_float]; [rewrite float_of_int_100 |]; reflexivity.
  - destruct (Z.of_N (win_count (trades pf)) >? 0); reflexivity.
  - destruct (Z.of_N (lose_count (trades pf)) >? 0); reflexivity.
  - destruct (Z.of_N (win_count (trades pf)) >? 0); reflexivity.
  - destruct (Z.of_N (lose_count (trades pf)) >? 0); reflexivity.
Qed.

Lemma C1_statistics_computed_from_engine_outputs_witness :
  exists result,
    snd (run_backtest Sample.sample_engine (Fin 1) (Fin 3)
           (Sample.request_of Sample.two_candles "ma_crossover")) = Returned result /\
    dict_get result "win_rate" = Some (VFloat (Fin 25)) /\
    dict_get result "profit_factor" = Some (VFloat (Fin (3 # 2))).
Proof.
  eexists. split; [vm_compute; reflexivity |].
  destruct (C1_statistics_computed_from_engine_outputs Sample.sample_engine (Fin 1) (Fin 3)
              (Sample.request_of Sample.two_candles "ma_crossover") _
              ltac:(vm_compute; reflexivity))
    as (args & pf & st & Hin & Hpf & _ & _ & _ & _ & _ & _ & _ & _ & _ & Hrate & Hpfac & _).
  vm_compute in Hin.
  repeat (destruct Hin as [Hin | Hin]; [try discriminate |]); [| contradiction].
  inversion Hin; subst args. vm_compute in Hpf. inversion Hpf; subst pf.
  split; [exact Hrate | exact Hpfac].
Defined.

(** ** The frame and its sorting (C10) *)

Lemma to_datetime_ms_ok (ms ns : Z) :
  to_datetime_ms ms = Ok ns -> ns = ms * 1000000.
Proof.
  unfold to_datetime_ms.
  destruct ((- 2 ^ 63 <? ms * 1000000) && (ms * 1000000 <? 2 ^ 63));
    [intros H; inversion H; reflexivity | discriminate].
Qed.


Lemma to_datetime_rows_ok (cs : list Candle) (rows : DataFrame) :
  to_datetime_rows cs = Ok rows ->
  rows = map (fun c => (timestamp c * 1000000, c)) cs.
Proof.
  revert rows. induction cs as [| c cs IH]; simpl; intros rows H.
  - inversion H. reflexivity.
  - destruct (to_datetime_ms (timestamp c)) as [ns |] eqn:Hc; [| discriminate].
    destruct (to_datetime_rows cs) as [rows' |] eqn:Hcs; [| discriminate].
    inversion H. apply to_datetime_ms_ok in Hc. subst ns.
    rewrite (IH rows' eq_refl). reflexivity.
Qed.

Lemma build_frame_ok (cs : list Candle) (df : DataFrame) :
  build_frame cs = Ok df ->
  cs <> [] /\ df = map (fun c => (timestamp c * 1000000, c)) cs.
Proof.
  destruct cs as [| c cs]; [discriminate |].
  unfold build_frame. intros H. split; [discriminate | apply to_datetime_rows_ok; exact H].
Qed.






Lemma insert_row_perm (r : Row) (df : DataFrame) :
  Permutation (r :: df) (insert_row r df).
Proof.
  induction df as [| c df IH]; simpl.
  - apply Permutation_refl.
  - destruct (date r <=? date c).
    + apply Permutation_refl.
    + eapply Permutation_trans; [apply perm_swap |]. apply perm_skip. exact IH.
Qed.

(** The sorted frame holds the same rows. *)
Lemma sort_index_permutation (df : DataFrame) : Permutation df (sort_index df).
Proof.
  induction df as [| r df IH]; simpl.
  - constructor.
  - eapply Permutation_trans; [apply perm_skip, IH | apply insert_row_perm].
Qed.



(** A frame already in non-decreasing order is its own sort: rows with
    equal dates stay in wire order. *)
Lemma sort_index_nondecreasing (df : DataFrame) :
  Sorted (fun x y => date x <= date y) df -> sort_index df = df.
Proof.
  induction 1 as [| r df Hs IH Hhd]; simpl; [reflexivity |].
  rewrite IH. destruct Hhd as [| r' df' Hle]; simpl; [reflexivity |].
  replace (date r <=? date r') with true by (symmetry; apply Z.leb_le; exact Hle).
  reflexivity.
Qed.

(** Two candles with the same timestamp ahead of an earlier one: the
    simulation gets the closes with the tie in wire order. *)
Lemma repeated_timestamp_keeps_wire_order :
  exists args,
    In (CallFromSignals args)
       (fst (run_backtest Sample.sample_engine (Fin 1) (Fin 3)
               (Sample.request_of
                  [Sample.candle_at 2000 2; Sample.candle_at 2000 3; Sample.candle_at 1000 1]
                  "rsi"))) /\
    sim_close args = [Fin 1; Fin 2; Fin 3].
Proof.
  eexists. split.
  - vm_compute. right. right. right. left. reflexivity.
  - reflexivity.
Qed.





(** ** The dispatch on the strategy type (C2) *)





(** ** The equity curve (C6) *)

Lemma equity_curve_from_shape (df : DataFrame) (values : list pyfloat) :
  forall (i : nat) (curve : list pyval),
    equity_curve_from df i values = Ok curve ->
    List.length curve = List.length values /\
    forall j value, nth_error values j = Some value ->
      exists ts,
        index_ms df (Z.of_nat (i + j)) = Ok ts /\
        nth_error curve j = Some (VDict [("timestamp", VInt ts); ("value", VFloat value)]).
Proof.
  induction values as [| v values IH]; simpl; intros i curve H.
  - inversion H. split; [reflexivity |]. intros [| j] value Hj; discriminate.
  - split_rbind H. inversion H; subst curve. clear H.
    destruct (IH _ _ E0) as [Hlen Hnth]. split; [simpl; congruence |].
    intros [| j] value Hj; simpl in Hj.
    + inversion Hj; subst value. exists v0. rewrite Nat.add_0_r. split; [exact E | reflexivity].
    + destruct (Hnth j value Hj) as (ts & Hts & Hc).
      exists ts. split; [| exact Hc].
      replace (i + S j)%nat with (S i + j)%nat by lia. exact Hts.
Qed.

(** What the code does: one point per equity value, in order, each with
    the engine's value and with the date of the sorted row at the same
    position, taken through [int(timestamp() * 1000)]. *)
Lemma equity_curve_shape (df : DataFrame) (pf : Portfolio) (curve : list pyval) :
  build_equity_curve df pf = Ok curve ->
  List.length curve = List.length (equity pf) /\
  forall i value, nth_error (equity pf) i = Some value ->
    exists ts,
      index_ms df (Z.of_nat i) = Ok ts /\
      nth_error curve i = Some (VDict [("timestamp", VInt ts); ("value", VFloat value)]).
Proof.
  unfold build_equity_curve. intros H.
  destruct (equity_curve_from_shape _ _ _ _ H) as [Hlen Hnth].
  split; [exact Hlen | exact Hnth].
Qed.

(** In a returned result the curve has one entry per equity value of the
    simulated portfolio, in order: the engine's value, stamped through the
    sorted frame's index at the same position. *)
Lemma returned_equity_curve (vbt : Engine) (start_time end_time : pyfloat)
    (request : BacktestRequest) (result : pydict) :
  snd (run_backtest vbt start_time end_time request) = Returned result ->
  exists df0 args pf curve,
    build_frame (candles request) = Ok df0 /\
    from_signals vbt args = Ok pf /\
    dict_get result "equity_curve" = Some (VList curve) /\
    List.length curve = List.length (equity pf) /\
    forall i value, nth_error (equity pf) i = Some value ->
      exists ts,
        index_ms (sort_index df0) (Z.of_nat i) = Ok ts /\
        nth_error curve i = Some (VDict [("timestamp", VInt ts); ("value", VFloat value)]).
Proof.
  intros Hret.
  destruct (run_backtest_returned _ _ _ _ _ Hret)
    as (df0 & args & pf & base & Hframe & _ & _ & Hpf & Hsum & ->).
  destruct (summarize_ok_inv _ _ _ Hsum)
    as (st & curve & tl & tr & trp & sr & md & mdp & _ & Hcurve & _ & _ & _ & _ & _ & _ & ->).
  destruct (equity_curve_shape _ _ _ Hcurve) as [Hlen Hnth].
  exists df0, args, pf, curve. repeat split; auto.
Qed.

(** C6 at a failing input: one candle with timestamp 1001 ms.  The request
    succeeds and the equity curve has its one entry, but the entry's
    timestamp is 1000: [1.001 * 1000] is [1000.9999999999999] in binary64
    and [int] truncates it.  The same happens at 1099016742593 (October
    2004), which comes back as 1099016742592. *)
Theorem C6_equity_timestamp_is_truncated :
  (exists result,
     snd (run_backtest Sample.sample_engine (Fin 1) (Fin 3)
            (Sample.request_of [Sample.candle_at 1001 100] "ma_crossover"))
       = Returned result /\
     dict_get result "equity_curve"
       = Some (VList [VDict [("timestamp", VInt 1000); ("value", VFloat (Fin 10000))]]) /\
     VDict [("timestamp", VInt 1000); ("value", VFloat (Fin 10000))]
       <> equity_point_as_stated (Sample.candle_at 1001 100) (Fin 10000)) /\
  index_ms [(1099016742593 * 1000000, Sample.candle_at 1099016742593 100)] 0
    = Ok 1099016742592.
Proof.
  split.
  - eexists. split; [vm_compute; reflexivity |].
    split; [vm_compute; reflexivity | discriminate].
  - vm_compute. reflexivity.
Qed.

(** ** The stress-test script (C7) *)









(** * Further properties of the code *)

(** ** Integers go through [binary64] unchanged *)

Lemma round_half_even_int (q : Q) (n : Z) :
  (q == inject_Z n)%Q -> round_half_even q = n.
Proof.
  destruct q as [a d]. unfold Qeq, inject_Z, round_half_even. cbn [Qnum Qden].
  intros H. assert (Ha : a = n * Z.pos d) by lia. subst a.
  rewrite Z.div_mul, Z.mod_mul by lia. reflexivity.
Qed.

Lemma Qred_inject_Z (n : Z) : Qred (inject_Z n) = inject_Z n.
Proof.
  unfold Qred, inject_Z.
  pose proof (Z.ggcd_gcd n 1) as Hg.
  pose proof (Z.ggcd_correct_divisors n 1) as Hd.
  destruct (Z.ggcd n 1) as [g [a b]]. simpl in *.
  rewrite Z.gcd_1_r in Hg. subst g. destruct Hd as [Ha Hb].
  rewrite Z.mul_1_l in Ha, Hb. subst n b. reflexivity.
Qed.

(** An integer below [2^53] in absolute value is a float: rounding a
    rational equal to it gives exactly that integer. *)
Lemma binary64_exact_int (q : Q) (n : Z) :
  (q == inject_Z n)%Q -> Z.abs n < 2 ^ 53 -> binary64 q = Fin (inject_Z n).
Proof.
  intros Hq Hn. unfold binary64.
  destruct (Qeq_bool q 0) eqn:Hz.
  - apply Qeq_bool_iff in Hz. rewrite Hz in Hq.
    assert (n = 0).
    { unfold Qeq, inject_Z in Hq. simpl in Hq. lia. }
    subst n. reflexivity.
  - assert (Hn0 : n <> 0).
    { intros ->. apply Qeq_bool_neq in Hz. apply Hz. exact Hq. }
    assert (Habs : (Qabs q == inject_Z (Z.abs n))%Q).
    { rewrite Hq. unfold Qabs, inject_Z. reflexivity. }
    assert (Hpos : (0 < Qabs q)%Q).
    { rewrite Habs. rewrite <- (Zlt_Qlt 0). lia. }
    set (e := Z.max (ilog2 (Qabs q) - (prec - 1)) emin).
    assert (He : e <= 0).
    { pose proof (ilog2_le_52 (Qabs q) (Z.abs n) Hpos) as H52.
      unfold e, prec, emin.
      assert (ilog2 (Qabs q) <= 52); [| lia].
      apply H52; [rewrite Habs; apply Qle_refl | exact Hn]. }
    assert (Hp : 0 < 2 ^ (- e)) by (apply Z.pow_pos_nonneg; lia).
    assert (Hm : round_half_even (Qabs q / Qpow2 e) = Z.abs n * 2 ^ (- e)).
    { apply round_half_even_int. rewrite Qdiv_Qpow2_nonpos by exact He.
      rewrite Habs, inject_Z_mult. reflexivity. }
    rewrite Hm.
    assert (Hr : (inject_Z (Z.abs n * 2 ^ (- e)) * Qpow2 e == inject_Z (Z.abs n))%Q).
    { destruct (Z.eq_dec e 0) as [He0 | He0].
      - rewrite He0. unfold Qpow2. simpl. unfold Qeq, Qmult, inject_Z. simpl. lia.
      - rewrite Qpow2_neg_exp by lia. unfold Qeq, Qmult, inject_Z. simpl.
        rewrite Z2Pos.id by lia. lia. }
    destruct (Qle_bool (Qpow2 emax) (inject_Z (Z.abs n * 2 ^ (- e)) * Qpow2 e)) eqn:Hov.
    + exfalso. apply Qle_bool_iff in Hov. rewrite Hr in Hov.
      unfold emax in Hov. rewrite Qpow2_nonneg_exp in Hov by lia.
      rewrite <- Zle_Qle in Hov.
      assert (2 ^ 53 <= 2 ^ 1024) by (apply Z.pow_le_mono_r; lia). lia.
    + f_equal. transitivity (Qred (inject_Z n)); [| apply Qred_inject_Z].
      apply Qred_complete.
      destruct (Qle_bool 0 q) eqn:Hsign.
      * apply Qle_bool_iff in Hsign. rewrite Hq in Hsign. rewrite <- (Zle_Qle 0) in Hsign.
        rewrite Hr. rewrite Z.abs_eq by lia. reflexivity.
      * assert (Hneg : n < 0).
        { destruct (Z_lt_le_dec n 0) as [Hlt | Hge]; [exact Hlt |].
          assert (Qle_bool 0 q = true); [| congruence].
          apply Qle_bool_iff. rewrite Hq. rewrite <- (Zle_Qle 0). exact Hge. }
        rewrite Hr. rewrite Z.abs_neq by lia. rewrite inject_Z_opp.
        rewrite Qopp_involutive. reflexivity.
Qed.

Lemma float_of_int_1000 : float_of_int 1000 = Fin 1000.
Proof. vm_compute. reflexivity. Qed.

(** [df.index[i]] for a position inside the frame. *)
Lemma py_index_nat {A : Type} (l : list A) (i : nat) (a : A) :
  nth_error l i = Some a -> py_index l (Z.of_nat i) = Ok a.
Proof.
  intros H. unfold py_index.
  assert (Hlt : (i < List.length l)%nat) by (apply nth_error_Some; congruence).
  destruct (Z.of_nat i <? 0) eqn:Hneg; [lia |].
  replace ((0 <=? Z.of_nat i) && (Z.of_nat i <? Z.of_nat (List.length l))) with true
    by (symmetry; apply andb_true_iff; split; lia).
  rewrite Nat2Z.id, H. reflexivity.
Qed.

(** A date on a whole second comes back from
    [int(timestamp() * 1000)] as the same number of milliseconds. *)
Lemma whole_second_index_ms (s : Z) :
  Z.abs (s * 1000) < 2 ^ 53 ->
  py_int (fmul (Timestamp_timestamp (s * 1000 * 1000000)) (float_of_int 1000))
    = Ok (s * 1000).
Proof.
  intros Hs. unfold Timestamp_timestamp, int_truediv.
  rewrite (binary64_exact_int _ s).
  - cbn [round6].
    rewrite (round_half_even_int _ (s * 1000000))
      by (rewrite inject_Z_mult; reflexivity).
    rewrite (binary64_exact_int _ s).
    + rewrite float_of_int_1000. cbn [fmul].
      rewrite (binary64_exact_int _ (s * 1000)).
      * cbn [py_int]. unfold Qtrunc, inject_Z. cbn [Qnum Qden].
        rewrite Z.quot_1_r. reflexivity.
      * rewrite inject_Z_mult. reflexivity.
      * exact Hs.
    + rewrite inject_Z_mult. field.
    + lia.
  - replace (s * 1000 * 1000000) with (s * 1000000000) by lia.
    rewrite inject_Z_mult. field.
  - lia.
Qed.

(** ** The rows of the frame *)

Lemma to_datetime_ms_range (ms ns : Z) :
  to_datetime_ms ms = Ok ns -> - 2 ^ 63 < ns < 2 ^ 63.
Proof.
  unfold to_datetime_ms.
  destruct ((- 2 ^ 63 <? ms * 1000000) && (ms * 1000000 <? 2 ^ 63)) eqn:Hr;
    [| discriminate].
  intros H. inversion H. subst ns. apply andb_true_iff in Hr. lia.
Qed.

(** Every row of a built frame is one of the candles under its timestamp
    in nanoseconds, which fits 64 bits. *)
Lemma build_frame_rows (cs : list Candle) (df : DataFrame) :
  build_frame cs = Ok df ->
  Forall (fun r => In (snd r) cs /\ date r = timestamp (snd r) * 1000000
                   /\ - 2 ^ 63 < date r < 2 ^ 63) df.
Proof.
  intros H.
  assert (Hrows : to_datetime_rows cs = Ok df).
  { destruct cs; [discriminate | exact H]. }
  clear H. revert df Hrows.
  induction cs as [| c cs IH]; simpl; intros df H.
  - inversion H. constructor.
  - destruct (to_datetime_ms (timestamp c)) as [ns |] eqn:Hc; [| discriminate].
    destruct (to_datetime_rows cs) as [rows |] eqn:Hcs; [| discriminate].
    inversion H. subst df. constructor.
    + pose proof (to_datetime_ms_range _ _ Hc). apply to_datetime_ms_ok in Hc.
      subst ns. unfold date. simpl. auto.
    + eapply Forall_impl; [| apply IH; reflexivity].
      intros r (Hin & Hd & Hb). simpl. auto.
Qed.

Lemma sort_index_length (df : DataFrame) :
  List.length (sort_index df) = List.length df.
Proof. symmetry. apply Permutation_length, sort_index_permutation. Qed.

Lemma build_frame_length (cs : list Candle) (df : DataFrame) :
  build_frame cs = Ok df -> List.length df = List.length cs.
Proof.
  intros H. destruct (build_frame_ok _ _ H) as [_ ->]. apply length_map.
Qed.

(** [l[i]] returns only for [-len <= i < len], and then the element at
    [i], counted from the end when [i] is negative. *)
Lemma py_index_ok_inv {A : Type} (l : list A) (i : Z) (a : A) :
  py_index l i = Ok a ->
  - Z.of_nat (List.length l) <= i < Z.of_nat (List.length l) /\
  nth_error l (Z.to_nat (if i <? 0 then Z.of_nat (List.length l) + i else i)) = Some a.
Proof.
  unfold py_index.
  set (n := Z.of_nat (List.length l)). set (j := if i <? 0 then n + i else i).
  destruct ((0 <=? j) && (j <? n)) eqn:Hr; [| discriminate].
  destruct (nth_error l (Z.to_nat j)) as [a' |] eqn:Hnth; [| discriminate].
  intros H. inversion H. subst a'. apply andb_true_iff in Hr.
  split; [| reflexivity]. subst j. destruct (i <? 0) eqn:Hi; lia.
Qed.

Lemma index_ms_ok_inv (df : DataFrame) (i ts : Z) :
  index_ms df i = Ok ts ->
  - Z.of_nat (List.length df) <= i < Z.of_nat (List.length df) /\
  exists r,
    py_index df i = Ok r /\
    py_int (fmul (Timestamp_timestamp (date r)) (float_of_int 1000)) = Ok ts.
Proof.
  unfold index_ms. destruct (py_index df i) as [r |] eqn:Hr; [| discriminate].
  intros H. split; [apply (py_index_ok_inv _ _ _ Hr) | eauto].
Qed.

(** What a returned result was built from. *)
Lemma returned_parts (vbt : Engine) (start_time end_time : pyfloat)
    (request : BacktestRequest) (result : pydict) :
  snd (run_backtest vbt start_time end_time request) = Returned result ->
  exists df0 args pf curve tl,
    build_frame (candles request) = Ok df0 /\
    In (CallFromSignals args) (fst (run_backtest vbt start_time end_time request)) /\
    from_signals vbt args = Ok pf /\
    build_equity_curve (sort_index df0) pf = Ok curve /\
    build_trade_list (sort_index df0) (records_arr (trades pf)) = Ok tl /\
    dict_get result "equity_curve" = Some (VList curve) /\
    dict_get result "trades" = Some (VList tl).
Proof.
  intros Hret.
  destruct (run_backtest_returned _ _ _ _ _ Hret)
    as (df0 & args & pf & base & Hframe & _ & Hin & Hpf & Hsum & ->).
  destruct (summarize_ok_inv _ _ _ Hsum)
    as (st & curve & tl & tr & trp & sr & md & mdp & _ & Hc & Ht & _ & _ & _ & _ & _ & ->).
  exists df0, args, pf, curve, tl. repeat split; auto.
Qed.

(** ** Timestamps on whole seconds (X1) *)

(** X1: when every candle's timestamp is a whole number of seconds, every
    point of the equity curve of a returned result carries exactly the
    timestamp of the candle at its place in the sorted frame, and the
    value the run's simulation gave for that place. *)
Theorem X1_whole_second_timestamps_are_kept (vbt : Engine)
    (start_time end_time : pyfloat) (request : BacktestRequest) (result : pydict) :
  snd (run_backtest vbt start_time end_time request) = Returned result ->
  (forall c, In c (candles request) -> timestamp c mod 1000 = 0) ->
  exists df0 args pf curve,
    build_frame (candles request) = Ok df0 /\
    In (CallFromSignals args) (fst (run_backtest vbt start_time end_time request)) /\
    from_signals vbt args = Ok pf /\
    dict_get result "equity_curve" = Some (VList curve) /\
    List.length curve = List.length (equity pf) /\
    forall i point, nth_error curve i = Some point ->
      exists row value,
        nth_error (sort_index df0) i = Some row /\
        nth_error (equity pf) i = Some value /\
        point = equity_point_as_stated (snd row) value.
Proof.
  intros Hret Hwhole.
  destruct (returned_parts _ _ _ _ _ Hret)
    as (df0 & args & pf & curve & tl & Hframe & Hin & Hpf & Hcurve & _ & Hget & _).
  destruct (equity_curve_shape _ _ _ Hcurve) as [Hlen Hnth].
  exists df0, args, pf, curve. repeat split; try assumption.
  intros i point Hpoint.
  destruct (nth_error (equity pf) i) as [value |] eqn:Hi.
  2:{ apply nth_error_None in Hi. rewrite <- Hlen in Hi.
      apply nth_error_None in Hi. congruence. }
  destruct (Hnth i value Hi) as (ts & Hts & Hpoint').
  rewrite Hpoint in Hpoint'. inversion Hpoint'. subst point. clear Hpoint'.
  destruct (index_ms_ok_inv _ _ _ Hts) as (_ & r & Hr & Hint).
  destruct (py_index_ok_inv _ _ _ Hr) as [_ Hrow].
  replace (Z.of_nat i <? 0) with false in Hrow by (symmetry; apply Z.ltb_ge; lia).
  rewrite Nat2Z.id in Hrow.
  exists r, value. split; [exact Hrow |]. split; [reflexivity |].
  assert (Hinr : In r df0).
  { apply (Permutation_in _ (Permutation_sym (sort_index_permutation df0))).
    apply (nth_error_In _ _ Hrow). }
  pose proof (build_frame_rows _ _ Hframe) as Hrows.
  rewrite Forall_forall in Hrows. destruct (Hrows r Hinr) as (Hc & Hdate & Hbound).
  pose proof (Hwhole _ Hc) as Hmod.
  apply Z.mod_divide in Hmod; [| lia]. destruct Hmod as [s Hs].
  rewrite Hdate, Hs in Hint.
  rewrite whole_second_index_ms in Hint by (rewrite <- Hs; lia).
  inversion Hint. unfold equity_point_as_stated. congruence.
Qed.

Lemma X1_whole_second_timestamps_are_kept_witness :
  exists result curve,
    snd (run_backtest Sample.sample_engine (Fin 1) (Fin 3)
           (Sample.request_of Sample.two_candles "rsi")) = Returned result /\
    dict_get result "equity_curve" = Some (VList curve) /\
    nth_error curve 1
      = Some (equity_point_as_stated (Sample.candle_at 1700000900000 101) (Fin 10000)).
Proof.
  destruct (X1_whole_second_timestamps_are_kept Sample.sample_engine (Fin 1) (Fin 3)
              (Sample.request_of Sample.two_candles "rsi") _
              ltac:(vm_compute; reflexivity))
    as (df0 & args & pf & curve & Hframe & Hin & Hpf & Hget & Hlen & Hpoints).
  - intros c [<- | [<- | []]]; reflexivity.
  - eexists. exists curve. split; [vm_compute; reflexivity |].
    split; [exact Hget |].
    vm_compute in Hframe. inversion Hframe. subst df0.
    vm_compute in Hin.
    repeat (destruct Hin as [Hin | Hin]; [try discriminate |]); [| contradiction].
    inversion Hin. subst args. vm_compute in Hpf. inversion Hpf. subst pf.
    destruct (nth_error curve 1) as [point |] eqn:Hp.
    + destruct (Hpoints _ _ Hp) as (row & value & Hrow & Hvalue & ->).
      vm_compute in Hrow. inversion Hrow. subst row.
      vm_compute in Hvalue. inversion Hvalue. subst value. reflexivity.
    + apply nth_error_None in Hp. rewrite Hlen in Hp. simpl in Hp. lia.
Defined.

(** ** The extremes of the win rate (X2) *)

Lemma win_rate_all_winners (t : Trades) :
  0 < winning_trades t -> losing_trades t = 0 ->
  py_float (py_mul_int (win_rate_of t) 100) = Fin 100.
Proof.
  intros Hw Hl. unfold win_rate_of, total_trades. rewrite Hl, Z.add_0_r.
  replace (winning_trades t >? 0) with true by (symmetry; apply Z.gtb_lt; exact Hw).
  cbn [py_mul_int py_float]. unfold int_truediv.
  rewrite (binary64_exact_int _ 1).
  - rewrite float_of_int_100. cbn [fmul].
    apply (binary64_exact_int _ 100); [reflexivity | reflexivity].
  - apply Qmult_inv_r. intros H. unfold Qeq, inject_Z in H. simpl in H. lia.
  - reflexivity.
Qed.

Lemma win_rate_no_winner (t : Trades) :
  winning_trades t = 0 ->
  py_float (py_mul_int (win_rate_of t) 100) = Fin 0.
Proof.
  intros Hw. unfold win_rate_of, total_trades. rewrite Hw.
  destruct (0 + losing_trades t >? 0); [| reflexivity].
  cbn [py_mul_int py_float]. unfold int_truediv.
  rewrite (binary64_exact_int _ 0).
  - rewrite float_of_int_100. cbn [fmul].
    apply (binary64_exact_int _ 0); [reflexivity | reflexivity].
  - unfold Qdiv. apply Qmult_0_l.
  - reflexivity.
Qed.

(** X2: in a returned result [win_rate] is exactly 100 when there are
    winning trades and no losing one, and exactly 0 when there is no
    winning trade. *)
Theorem X2_win_rate_extremes (vbt : Engine) (start_time end_time : pyfloat)
    (request : BacktestRequest) (result : pydict) :
  snd (run_backtest vbt start_time end_time request) = Returned result ->
  exists w l,
    dict_get result "winning_trades" = Some (VInt w) /\
    dict_get result "losing_trades" = Some (VInt l) /\
    (0 < w -> l = 0 -> dict_get result "win_rate" = Some (VFloat (Fin 100))) /\
    (w = 0 -> dict_get result "win_rate" = Some (VFloat (Fin 0))).
Proof.
  intros Hret.
  destruct (run_backtest_returned _ _ _ _ _ Hret)
    as (df0 & args & pf & base & _ & _ & _ & _ & Hsum & ->).
  destruct (summarize_ok_inv _ _ _ Hsum)
    as (st & curve & tl & tr & trp & sr & md & mdp & _ & _ & _ & _ & _ & _ & _ & _ & ->).
  exists (winning_trades (trades pf)), (losing_trades (trades pf)).
  split; [reflexivity |]. split; [reflexivity |]. split.
  - intros Hw Hl. cbn. rewrite (win_rate_all_winners _ Hw Hl). reflexivity.
  - intros Hw. cbn. rewrite (win_rate_no_winner _ Hw). reflexivity.
Qed.

(** Both extremes: two winners and no loser give 100, three losers and
    no winner give 0. *)
Lemma X2_win_rate_extremes_witness :
  (exists result,
     snd (run_backtest (Sample.engine_with Sample.only_winners) (Fin 1) (Fin 3)
            (Sample.request_of Sample.two_candles "rsi")) = Returned result /\
     dict_get result "win_rate" = Some (VFloat (Fin 100))) /\
  (exists result,
     snd (run_backtest (Sample.engine_with Sample.only_losers) (Fin 1) (Fin 3)
            (Sample.request_of Sample.two_candles "rsi")) = Returned result /\
     dict_get result "win_rate" = Some (VFloat (Fin 0))).
Proof.
  split.
  - eexists. split; [vm_compute; reflexivity |].
    destruct (X2_win_rate_extremes (Sample.engine_with Sample.only_winners) (Fin 1) (Fin 3)
                (Sample.request_of Sample.two_candles "rsi") _
                ltac:(vm_compute; reflexivity))
      as (w & l & Hw & Hl & Hall & _).
    vm_compute in Hw. inversion Hw. subst w.
    vm_compute in Hl. inversion Hl. subst l.
    exact (Hall ltac:(lia) eq_refl).
  - eexists. split; [vm_compute; reflexivity |].
    destruct (X2_win_rate_extremes (Sample.engine_with Sample.only_losers) (Fin 1) (Fin 3)
                (Sample.request_of Sample.two_candles "rsi") _
                ltac:(vm_compute; reflexivity))
      as (w & l & Hw & Hl & _ & Hnone).
    vm_compute in Hw. inversion Hw. subst w.
    exact (Hnone eq_refl).
Defined.

(** ** The sign of the profit factor (X3) *)

Lemma profit_factor_not_negative (t : Trades) : not_negative (profit_factor t).
Proof.
  unfold profit_factor. destruct (fne0 (arr_sum (lose_pnl t))); [| exact I].
  destruct (fdiv (arr_sum (win_pnl t)) (arr_sum (lose_pnl t))) as [q | | |];
    simpl; auto. apply Qabs_nonneg.
Qed.

(** X3: the [profit_factor] of a returned result is never negative: it is
    a finite value of at least zero, plus infinity, or nan (when the
    engine's sums are). *)
Theorem X3_profit_factor_is_not_negative (vbt : Engine) (start_time end_time : pyfloat)
    (request : BacktestRequest) (result : pydict) :
  snd (run_backtest vbt start_time end_time request) = Returned result ->
  exists x, dict_get result "profit_factor" = Some (VFloat x) /\ not_negative x.
Proof.
  intros Hret.
  destruct (run_backtest_returned _ _ _ _ _ Hret)
    as (df0 & args & pf & base & _ & _ & _ & _ & Hsum & ->).
  destruct (summarize_ok_inv _ _ _ Hsum)
    as (st & curve & tl & tr & trp & sr & md & mdp & _ & _ & _ & _ & _ & _ & _ & _ & ->).
  exists (profit_factor (trades pf)). split; [reflexivity |].
  apply profit_factor_not_negative.
Qed.

Lemma X3_profit_factor_is_not_negative_witness :
  exists result x,
    snd (run_backtest Sample.sample_engine (Fin 1) (Fin 3)
           (Sample.request_of Sample.two_candles "ma_crossover")) = Returned result /\
    dict_get result "profit_factor" = Some (VFloat x) /\ not_negative x.
Proof.
  destruct (X3_profit_factor_is_not_negative Sample.sample_engine (Fin 1) (Fin 3)
              (Sample.request_of Sample.two_candles "ma_crossover") _
              ltac:(vm_compute; reflexivity))
    as (x & Hget & Hx).
  eexists. exists x. split; [vm_compute; reflexivity |]. split; assumption.
Defined.

(** ** The shape of the result (X4) *)

(** X4: a returned result has exactly the fields of the response model, in
    its order; the fields the model declares as float hold floats, the
    three counts hold ints, the two lists hold lists; and
    [execution_time] is the difference of the two clock readings, not the
    placeholder 0 the strategy put there. *)
Theorem X4_result_matches_response_model (vbt : Engine) (start_time end_time : pyfloat)
    (request : BacktestRequest) (result : pydict) :
  snd (run_backtest vbt start_time end_time request) = Returned result ->
  dict_keys result = BacktestResult_fields /\
  (forall key, In key float_fields -> exists x, dict_get result key = Some (VFloat x)) /\
  (forall key, In key int_fields -> exists n, dict_get result key = Some (VInt n)) /\
  (exists l, dict_get result "equity_curve" = Some (VList l)) /\
  (exists l, dict_get result "trades" = Some (VList l)) /\
  dict_get result "execution_time" = Some (VFloat (fsub end_time start_time)).
Proof.
  intros Hret.
  destruct (run_backtest_returned _ _ _ _ _ Hret)
    as (df0 & args & pf & base & _ & _ & _ & _ & Hsum & ->).
  destruct (summarize_ok_inv _ _ _ Hsum)
    as (st & curve & tl & tr & trp & sr & md & mdp & _ & _ & _ & _ & _ & _ & _ & _ & ->).
  split; [reflexivity |]. split; [| split; [| split; [| split]]].
  - intros key Hkey. unfold float_fields in Hkey. simpl in Hkey.
    repeat (destruct Hkey as [<- | Hkey]; [eexists; reflexivity |]). contradiction.
  - intros key Hkey. unfold int_fields in Hkey. simpl in Hkey.
    repeat (destruct Hkey as [<- | Hkey]; [eexists; reflexivity |]). contradiction.
  - eexists. reflexivity.
  - eexists. reflexivity.
  - reflexivity.
Qed.

Lemma X4_result_matches_response_model_witness :
  exists result,
    snd (run_backtest Sample.sample_engine (Fin 1) (Fin 3)
           (Sample.request_of Sample.two_candles "ma_crossover")) = Returned result /\
    dict_keys result = BacktestResult_fields /\
    dict_get result "execution_time" = Some (VFloat (Fin 2)).
Proof.
  eexists. split; [vm_compute; reflexivity |].
  destruct (X4_result_matches_response_model Sample.sample_engine (Fin 1) (Fin 3)
              (Sample.request_of Sample.two_candles "ma_crossover") _
              ltac:(vm_compute; reflexivity))
    as (Hkeys & _ & _ & _ & _ & Htime).
  split; [exact Hkeys | exact Htime].
Defined.

(** ** The trade list (X5, X6, X7) and the bounds on the engine's indices (X8) *)

Lemma trade_dict_ok_inv (df : DataFrame) (trade : TradeRecord) (d : pyval) :
  trade_dict df trade = Ok d ->
  exists entry_time exit_time,
    index_ms df (entry_idx trade) = Ok entry_time /\
    ((exit_idx trade = -1 /\ exit_time = VNone) \/
     (exit_idx trade <> -1 /\
      exists t, index_ms df (exit_idx trade) = Ok t /\ exit_time = VInt t)) /\
    d = VDict
          [("id", VStr (str_int (id trade)));
           ("symbol", VStr "Unknown");
           ("side", VStr (if direction trade >? 0 then "buy" else "sell"));
           ("entryTime", VInt entry_time);
           ("exitTime", exit_time);
           ("entryPrice", VFloat (entry_price trade));
           ("exitPrice",
            if fne0 (exit_price trade) then VFloat (exit_price trade) else VNone);
           ("quantity", VFloat (size trade));
           ("pnl", VFloat (pnl trade));
           ("pnlPercent", VFloat (fmul (return_ trade) (float_of_int 100)));
           ("status", VStr (if negb (exit_idx trade =? -1) then "closed" else "open"))].
Proof.
  unfold trade_dict. intros H.
  apply rbind_ok_inv in H. destruct H as (entry_time & Hentry & H).
  apply rbind_ok_inv in H. destruct H as (exit_time & Hexit & H).
  inversion H. exists entry_time, exit_time. split; [exact Hentry |].
  split; [| reflexivity].
  destruct (exit_idx trade =? -1) eqn:Hx; simpl in Hexit.
  - left. apply Z.eqb_eq in Hx. inversion Hexit. auto.
  - right. apply Z.eqb_neq in Hx. split; [exact Hx |].
    apply rbind_ok_inv in Hexit. destruct Hexit as (t & Ht & Hexit).
    inversion Hexit. eauto.
Qed.

(** The trade list has one dict per record, in the records' order. *)
Lemma build_trade_list_shape (df : DataFrame) (records : list TradeRecord) :
  forall tl, build_trade_list df records = Ok tl ->
    Forall2 (fun trade d => trade_dict df trade = Ok d) records tl.
Proof.
  induction records as [| trade rest IH]; simpl; intros tl H.
  - inversion H. constructor.
  - apply rbind_ok_inv in H. destruct H as (d & Hd & H).
    apply rbind_ok_inv in H. destruct H as (ds & Hds & H).
    inversion H. constructor; [exact Hd | apply IH; exact Hds].
Qed.

(** X5: the [trades] of a returned result has one dict per record of the
    engine's [records_arr], in the same order; each has the eleven keys of
    the trade dict in order, the symbol ["Unknown"], the record's id as a
    string and its entry price, size and PnL unchanged. *)
Theorem X5_trade_list_follows_records (vbt : Engine) (start_time end_time : pyfloat)
    (request : BacktestRequest) (result : pydict) :
  snd (run_backtest vbt start_time end_time request) = Returned result ->
  exists args pf tl,
    In (CallFromSignals args) (fst (run_backtest vbt start_time end_time request)) /\
    from_signals vbt args = Ok pf /\
    dict_get result "trades" = Some (VList tl) /\
    List.length tl = List.length (records_arr (trades pf)) /\
    Forall2
      (fun trade d =>
         exists fields,
           d = VDict fields /\
           dict_keys fields = trade_keys /\
           dict_get fields "id" = Some (VStr (str_int (id trade))) /\
           dict_get fields "symbol" = Some (VStr "Unknown") /\
           dict_get fields "entryPrice" = Some (VFloat (entry_price trade)) /\
           dict_get fields "quantity" = Some (VFloat (size trade)) /\
           dict_get fields "pnl" = Some (VFloat (pnl trade)))
      (records_arr (trades pf)) tl.
Proof.
  intros Hret.
  destruct (returned_parts _ _ _ _ _ Hret)
    as (df0 & args & pf & curve & tl & _ & Hin & Hpf & _ & Htl & _ & Hget).
  exists args, pf, tl. repeat split; try assumption.
  - symmetry. apply (Forall2_length (build_trade_list_shape _ _ _ Htl)).
  - eapply Forall2_impl; [| apply (build_trade_list_shape _ _ _ Htl)].
    intros trade d Hd.
    destruct (trade_dict_ok_inv _ _ _ Hd) as (entry_time & exit_time & _ & _ & ->).
    eexists. split; [reflexivity |]. repeat split; reflexivity.
Qed.

Lemma X5_trade_list_follows_records_witness :
  exists result tl,
    snd (run_backtest Sample.sample_engine (Fin 1) (Fin 3)
           (Sample.request_of Sample.two_candles "rsi")) = Returned result /\
    dict_get result "trades" = Some (VList tl) /\
    List.length tl = 1%nat.
Proof.
  destruct (X5_trade_list_follows_records Sample.sample_engine (Fin 1) (Fin 3)
              (Sample.request_of Sample.two_candles "rsi") _
              ltac:(vm_compute; reflexivity))
    as (args & pf & tl & _ & _ & Hget & _ & _).
  eexists. exists tl. split; [vm_compute; reflexivity |]. split; [exact Hget |].
  vm_compute in Hget. inversion Hget. reflexivity.
Defined.

(** X6: in every trade dict of a returned result the status and the exit
    time go together: an open trade (exit index -1) has status ["open"]
    and [exitTime] None, any other has status ["closed"] and an integer
    [exitTime]. *)
Theorem X6_trade_status_matches_exit_time (vbt : Engine) (start_time end_time : pyfloat)
    (request : BacktestRequest) (result : pydict) :
  snd (run_backtest vbt start_time end_time request) = Returned result ->
  exists args pf tl,
    from_signals vbt args = Ok pf /\
    dict_get result "trades" = Some (VList tl) /\
    Forall2
      (fun trade d =>
         exists fields,
           d = VDict fields /\
           ((exit_idx trade = -1 /\
             dict_get fields "status" = Some (VStr "open") /\
             dict_get fields "exitTime" = Some VNone) \/
            (exit_idx trade <> -1 /\
             dict_get fields "status" = Some (VStr "closed") /\
             exists t, dict_get fields "exitTime" = Some (VInt t))))
      (records_arr (trades pf)) tl.
Proof.
  intros Hret.
  destruct (returned_parts _ _ _ _ _ Hret)
    as (df0 & args & pf & curve & tl & _ & _ & Hpf & _ & Htl & _ & Hget).
  exists args, pf, tl. repeat split; try assumption.
  eapply Forall2_impl; [| apply (build_trade_list_shape _ _ _ Htl)].
  intros trade d Hd.
  destruct (trade_dict_ok_inv _ _ _ Hd) as (entry_time & exit_time & _ & Hexit & ->).
  eexists. split; [reflexivity |].
  destruct Hexit as [[Hx ->] | (Hx & t & _ & ->)].
  - left. split; [exact Hx |]. rewrite Hx. split; reflexivity.
  - right. split; [exact Hx |]. apply Z.eqb_neq in Hx. cbn. rewrite Hx.
    split; [reflexivity | eauto].
Qed.

Lemma X6_trade_status_matches_exit_time_witness :
  exists result tl,
    snd (run_backtest Sample.sample_engine (Fin 1) (Fin 3)
           (Sample.request_of Sample.two_candles "rsi")) = Returned result /\
    dict_get result "trades" = Some (VList tl).
Proof.
  destruct (X6_trade_status_matches_exit_time Sample.sample_engine (Fin 1) (Fin 3)
              (Sample.request_of Sample.two_candles "rsi") _
              ltac:(vm_compute; reflexivity))
    as (args & pf & tl & _ & Hget & _).
  eexists. exists tl. split; [vm_compute; reflexivity | exact Hget].
Defined.

Lemma Forall2_nth_left {A B : Type} (R : A -> B -> Prop) (l : list A) (l' : list B) :
  Forall2 R l l' ->
  forall k a, nth_error l k = Some a -> exists b, nth_error l' k = Some b /\ R a b.
Proof.
  induction 1 as [| x y l l' Hxy _ IH]; intros k a Hk.
  - destruct k; discriminate.
  - destruct k as [| k]; simpl in *.
    + inversion Hk. subst. eauto.
    + apply IH. exact Hk.
Qed.

(** X7: the [entryTime] of every trade dict of a returned result is the
    timestamp of the equity point at the trade's entry bar, whenever that
    bar is a position of the curve: both come from the same index through
    the same conversion. *)
Theorem X7_entry_time_is_the_equity_timestamp (vbt : Engine)
    (start_time end_time : pyfloat) (request : BacktestRequest) (result : pydict) :
  snd (run_backtest vbt start_time end_time request) = Returned result ->
  exists args pf curve tl,
    In (CallFromSignals args) (fst (run_backtest vbt start_time end_time request)) /\
    from_signals vbt args = Ok pf /\
    dict_get result "equity_curve" = Some (VList curve) /\
    dict_get result "trades" = Some (VList tl) /\
    List.length curve = List.length (equity pf) /\
    List.length tl = List.length (records_arr (trades pf)) /\
    forall k d, nth_error tl k = Some d ->
      exists trade fields,
        nth_error (records_arr (trades pf)) k = Some trade /\
        d = VDict fields /\
        (0 <= entry_idx trade < Z.of_nat (List.length curve) ->
         exists ts point,
           nth_error curve (Z.to_nat (entry_idx trade)) = Some (VDict point) /\
           dict_get point "timestamp" = Some (VInt ts) /\
           dict_get fields "entryTime" = Some (VInt ts)).
Proof.
  intros Hret.
  destruct (returned_parts _ _ _ _ _ Hret)
    as (df0 & args & pf & curve & tl & _ & Hin & Hpf & Hcurve & Htl & Hgetc & Hgett).
  destruct (equity_curve_shape _ _ _ Hcurve) as [Hlen Hpoints].
  pose proof (build_trade_list_shape _ _ _ Htl) as Hshape.
  pose proof (Forall2_length Hshape) as Hlent.
  exists args, pf, curve, tl. repeat split; try assumption; [congruence |].
  intros k d Hk.
  destruct (nth_error (records_arr (trades pf)) k) as [trade |] eqn:Htrade.
  2:{ apply nth_error_None in Htrade. rewrite Hlent in Htrade.
      apply nth_error_None in Htrade. congruence. }
  destruct (Forall2_nth_left _ _ _ Hshape _ _ Htrade) as (d' & Hd' & Hdict).
  rewrite Hk in Hd'. inversion Hd'. subst d'. clear Hd'.
  destruct (trade_dict_ok_inv _ _ _ Hdict) as (entry_time & exit_time & Hentry & _ & ->).
  eexists trade, _. split; [reflexivity |]. split; [reflexivity |].
  intros Hrange. rewrite Hlen in Hrange.
  destruct (nth_error (equity pf) (Z.to_nat (entry_idx trade))) as [value |] eqn:Hv.
  2:{ apply nth_error_None in Hv. lia. }
  destruct (Hpoints _ _ Hv) as (ts & Hts & Hpoint).
  rewrite Z2Nat.id in Hts by lia.
  rewrite Hts in Hentry. inversion Hentry. subst entry_time.
  eexists ts, _. split; [exact Hpoint |]. split; reflexivity.
Qed.

Lemma X7_entry_time_is_the_equity_timestamp_witness :
  exists result curve tl point fields,
    snd (run_backtest Sample.sample_engine (Fin 1) (Fin 3)
           (Sample.request_of Sample.two_candles "rsi")) = Returned result /\
    dict_get result "equity_curve" = Some (VList curve) /\
    dict_get result "trades" = Some (VList tl) /\
    nth_error curve 0 = Some (VDict point) /\
    nth_error tl 0 = Some (VDict fields) /\
    dict_get point "timestamp" = Some (VInt 1700000000000) /\
    dict_get fields "entryTime" = Some (VInt 1700000000000).
Proof.
  destruct (X7_entry_time_is_the_equity_timestamp Sample.sample_engine (Fin 1) (Fin 3)
              (Sample.request_of Sample.two_candles "rsi") _
              ltac:(vm_compute; reflexivity))
    as (args & pf & curve & tl & Hin & Hpf & Hc & Ht & Hlenc & Hlent & Htrades).
  vm_compute in Hin.
  repeat (destruct Hin as [Hin | Hin]; [try discriminate |]); [| contradiction].
  inversion Hin. subst args. vm_compute in Hpf. inversion Hpf. subst pf.
  destruct (nth_error tl 0) as [d |] eqn:Hd.
  2:{ apply nth_error_None in Hd. rewrite Hlent in Hd. simpl in Hd. lia. }
  destruct (Htrades _ _ Hd) as (trade & fields & Htrade & -> & Hentry).
  vm_compute in Htrade. inversion Htrade. subst trade.
  destruct Hentry as (ts & point & Hpoint & Hts & Htime).
  { rewrite Hlenc. simpl. lia. }
  simpl in Hpoint.
  eexists. exists curve, tl, point, fields.
  split; [vm_compute; reflexivity |].
  split; [exact Hc |]. split; [exact Ht |]. split; [exact Hpoint |].
  split; [exact Hd |].
  vm_compute in Hc. inversion Hc. subst curve.
  vm_compute in Hpoint. inversion Hpoint. subst point.
  vm_compute in Hts. inversion Hts. subst ts.
  split; [reflexivity | exact Htime].
Defined.

(** X8: a request succeeds only if the engine's indices fit the frame: it
    returned at most one equity value per candle, every trade's entry
    index lies in [-n, n) for [n] candles, and every exit index is -1 or
    lies in [-n, n).  (Anything else raises [IndexError] and ends in the
    500 of the generic handler.) *)
Theorem X8_success_bounds_engine_indices (vbt : Engine) (start_time end_time : pyfloat)
    (request : BacktestRequest) (result : pydict) :
  snd (run_backtest vbt start_time end_time request) = Returned result ->
  exists args pf,
    In (CallFromSignals args) (fst (run_backtest vbt start_time end_time request)) /\
    from_signals vbt args = Ok pf /\
    let n := Z.of_nat (List.length (candles request)) in
    Z.of_nat (List.length (equity pf)) <= n /\
    Forall (fun trade =>
              - n <= entry_idx trade < n /\
              (exit_idx trade = -1 \/ - n <= exit_idx trade < n))
           (records_arr (trades pf)).
Proof.
  intros Hret.
  destruct (returned_parts _ _ _ _ _ Hret)
    as (df0 & args & pf & curve & tl & Hframe & Hin & Hpf & Hcurve & Htl & _ & _).
  exists args, pf. split; [exact Hin |]. split; [exact Hpf |]. cbn zeta.
  assert (Hlen : List.length (sort_index df0) = List.length (candles request)).
  { rewrite sort_index_length. apply build_frame_length. exact Hframe. }
  rewrite <- Hlen. split.
  - destruct (equity_curve_shape _ _ _ Hcurve) as [_ Hpoints].
    destruct (Nat.le_gt_cases (List.length (equity pf)) (List.length (sort_index df0)))
      as [Hle | Hgt]; [lia | exfalso].
    destruct (nth_error (equity pf) (List.length (sort_index df0))) as [value |] eqn:Hv.
    + destruct (Hpoints _ _ Hv) as (ts & Hts & _).
      apply index_ms_ok_inv in Hts. lia.
    + apply nth_error_None in Hv. lia.
  - pose proof (build_trade_list_shape _ _ _ Htl) as Hshape.
    clear - Hshape. induction Hshape as [| trade d records tl' Hd _ IH]; constructor.
    + destruct (trade_dict_ok_inv _ _ _ Hd)
        as (entry_time & exit_time & Hentry & Hexit & _).
      split; [apply (index_ms_ok_inv _ _ _ Hentry) |].
      destruct Hexit as [[Hx _] | (_ & t & Ht & _)];
        [left; exact Hx | right; apply (index_ms_ok_inv _ _ _ Ht)].
    + exact IH.
Qed.

Lemma X8_success_bounds_engine_indices_witness :
  exists args pf,
    from_signals Sample.sample_engine args = Ok pf /\
    Z.of_nat (List.length (equity pf)) <= 2.
Proof.
  destruct (X8_success_bounds_engine_indices Sample.sample_engine (Fin 1) (Fin 3)
              (Sample.request_of Sample.two_candles "rsi") _
              ltac:(vm_compute; reflexivity))
    as (args & pf & _ & Hpf & Hlen & _).
  exists args, pf. split; [exact Hpf | exact Hlen].
Defined.

(** ** The calls into the engine (X9, X10) *)

Lemma ma_strategy_call_names (vbt : Engine) (df : DataFrame) (p : StrategyParams) :
  exists k, map event_name (calls (run_ma_crossover_strategy vbt df p))
            = firstn k ma_crossover_calls.
Proof.
  unfold run_ma_crossover_strategy, calls, bind, call, lift. simpl.
  destruct (MA_run vbt (col_close df) (fast_window p)) as [fast |]; simpl;
    [| exists 1%nat; reflexivity].
  destruct (MA_run vbt (col_close df) (slow_window p)) as [slow |]; simpl;
    [| exists 2%nat; reflexivity].
  destruct (ma_above vbt fast slow) as [entries |]; simpl;
    [| exists 3%nat; reflexivity].
  destruct (ma_below vbt fast slow) as [exits |]; simpl;
    [| exists 4%nat; reflexivity].
  exists 5%nat.
  destruct (from_signals vbt (sim_args df p entries exits)); reflexivity.
Qed.

Lemma rsi_strategy_call_names (vbt : Engine) (df : DataFrame) (p : StrategyParams) :
  exists k, map event_name (calls (run_rsi_strategy vbt df p)) = firstn k rsi_calls.
Proof.
  unfold run_rsi_strategy, calls, bind, call, lift. simpl.
  destruct (RSI_run vbt (col_close df) (rsi_window p)) as [rsi |]; simpl;
    [| exists 1%nat; reflexivity].
  destruct (rsi_below vbt rsi (rsi_oversold p)) as [entries |]; simpl;
    [| exists 2%nat; reflexivity].
  destruct (rsi_above vbt rsi (rsi_overbought p)) as [exits |]; simpl;
    [| exists 3%nat; reflexivity].
  exists 4%nat.
  destruct (from_signals vbt (sim_args df p entries exits)); reflexivity.
Qed.

(** X9: the engine is called in a fixed order and each call at most once
    per step: a moving-average request makes a prefix of [MA.run], [MA.run],
    [ma_above], [ma_below], [Portfolio.from_signals] (so never an RSI call and
    at most one simulation), an RSI request a prefix of [RSI.run],
    [rsi_below], [rsi_above], [Portfolio.from_signals], any other request
    no call; a request that succeeds made the whole sequence. *)
Theorem X9_engine_calls_in_order (vbt : Engine) (start_time end_time : pyfloat)
    (request : BacktestRequest) :
  let ty := strategy_type (strategy_params request) in
  let run := run_backtest vbt start_time end_time request in
  let names := map event_name (fst run) in
  (ty = "ma_crossover" -> exists k, names = firstn k ma_crossover_calls) /\
  (ty = "rsi" -> exists k, names = firstn k rsi_calls) /\
  (ty <> "ma_crossover" -> ty <> "rsi" -> names = []) /\
  (forall result, snd run = Returned result ->
     (ty = "ma_crossover" /\ names = ma_crossover_calls) \/
     (ty = "rsi" /\ names = rsi_calls)).
Proof.
  intros ty run names. subst ty run names. unfold run_backtest. cbn [fst snd].
  destruct (build_frame (candles request)) as [df0 | e] eqn:Hframe.
  - repeat split.
    + intros Hty. rewrite (run_backtest_ma vbt _ _ _ df0 Hframe Hty), calls_bind_ret.
      apply ma_strategy_call_names.
    + intros Hty. rewrite (run_backtest_rsi vbt _ _ _ df0 Hframe Hty), calls_bind_ret.
      apply rsi_strategy_call_names.
    + intros Hma Hrsi. rewrite (run_backtest_unsupported vbt _ _ _ df0 Hframe Hma Hrsi).
      reflexivity.
    + intros result Hret.
      destruct (String.eqb (strategy_type (strategy_params request)) "ma_crossover")
        eqn:Hma.
      * apply String.eqb_eq in Hma. left. split; [exact Hma |].
        rewrite (run_backtest_ma vbt _ _ _ df0 Hframe Hma) in *.
        rewrite calls_bind_ret.
        destruct (outcome (run_ma_crossover_strategy vbt (sort_index df0)
                             (strategy_params request))) as [base | e] eqn:Hout.
        -- destruct (ma_strategy_ok_inv _ _ _ _ Hout)
             as (fast & slow & entries & exits & pf & _ & _ & _ & _ & _ & _ & ->).
           reflexivity.
        -- unfold outcome, bind in Hret. unfold outcome in Hout. rewrite Hout in Hret.
           discriminate.
      * destruct (String.eqb (strategy_type (strategy_params request)) "rsi") eqn:Hrsi.
        -- apply String.eqb_eq in Hrsi. right. split; [exact Hrsi |].
           rewrite (run_backtest_rsi vbt _ _ _ df0 Hframe Hrsi) in *.
           rewrite calls_bind_ret.
           destruct (outcome (run_rsi_strategy vbt (sort_index df0)
                                (strategy_params request))) as [base | e] eqn:Hout.
           ++ destruct (rsi_strategy_ok_inv _ _ _ _ Hout)
                as (rsi & entries & exits & pf & _ & _ & _ & _ & _ & ->).
              reflexivity.
           ++ unfold outcome, bind in Hret. unfold outcome in Hout.
              rewrite Hout in Hret. discriminate.
        -- apply String.eqb_neq in Hma, Hrsi.
           rewrite (run_backtest_unsupported vbt _ _ _ df0 Hframe Hma Hrsi) in Hret.
           discriminate.
  - assert (Hbody : run_backtest_body vbt start_time end_time request = ([], Err e)).
    { unfold run_backtest_body. rewrite Hframe. reflexivity. }
    rewrite Hbody. cbn [calls outcome fst snd map respond].
    repeat split; try (intros; exists 0%nat; reflexivity); try reflexivity.
    intros result Hret. discriminate.
Qed.

Lemma X9_engine_calls_in_order_witness :
  map event_name
    (fst (run_backtest Sample.sample_engine (Fin 1) (Fin 3)
            (Sample.request_of Sample.two_candles "rsi"))) = rsi_calls.
Proof.
  destruct (X9_engine_calls_in_order Sample.sample_engine (Fin 1) (Fin 3)
              (Sample.request_of Sample.two_candles "rsi")) as (_ & _ & _ & Hfull).
  destruct (Hfull _ ltac:(vm_compute; reflexivity)) as [[Hty _] | [_ Hnames]].
  - discriminate.
  - exact Hnames.
Defined.

(** A simulation call of the handler carries the arguments built from the
    sorted frame and the signals of the request's strategy. *)
Lemma simulation_call_inv (vbt : Engine) (start_time end_time : pyfloat)
    (request : BacktestRequest) (args : SimArgs) :
  In (CallFromSignals args) (fst (run_backtest vbt start_time end_time request)) ->
  exists df0 entries exits,
    build_frame (candles request) = Ok df0 /\
    args = sim_args (sort_index df0) (strategy_params request) entries exits /\
    let df := sort_index df0 in
    let p := strategy_params request in
    ((exists fast slow,
        MA_run vbt (col_close df) (fast_window p) = Ok fast /\
        MA_run vbt (col_close df) (slow_window p) = Ok slow /\
        ma_above vbt fast slow = Ok entries /\
        ma_below vbt fast slow = Ok exits /\
        strategy_type p = "ma_crossover") \/
     (exists rsi,
        RSI_run vbt (col_close df) (rsi_window p) = Ok rsi /\
        rsi_below vbt rsi (rsi_oversold p) = Ok entries /\
        rsi_above vbt rsi (rsi_overbought p) = Ok exits /\
        strategy_type p <> "ma_crossover")).
Proof.
  unfold run_backtest. cbn [fst]. intros Hin.
  destruct (build_frame (candles request)) as [df0 | e] eqn:Hframe.
  2:{ unfold run_backtest_body in Hin. rewrite Hframe in Hin. contradiction. }
  destruct (String.eqb (strategy_type (strategy_params request)) "ma_crossover") eqn:Hma.
  - apply String.eqb_eq in Hma.
    rewrite (run_backtest_ma vbt _ _ _ df0 Hframe Hma), calls_bind_ret in Hin.
    destruct (ma_strategy_simulation_args _ _ _ _ Hin)
      as (fast & slow & entries & exits & H1 & H2 & H3 & H4 & ->).
    exists df0, entries, exits. split; [reflexivity |]. split; [reflexivity |].
    left. exists fast, slow. auto.
  - destruct (String.eqb (strategy_type (strategy_params request)) "rsi") eqn:Hrsi.
    + apply String.eqb_eq in Hrsi. apply String.eqb_neq in Hma.
      rewrite (run_backtest_rsi vbt _ _ _ df0 Hframe Hrsi), calls_bind_ret in Hin.
      destruct (rsi_strategy_simulation_args _ _ _ _ Hin)
        as (rsi & entries & exits & H1 & H2 & H3 & ->).
      exists df0, entries, exits. split; [reflexivity |]. split; [reflexivity |].
      right. exists rsi. auto.
    + apply String.eqb_neq in Hma, Hrsi.
      rewrite (run_backtest_unsupported vbt _ _ _ df0 Hframe Hma Hrsi) in Hin.
      contradiction.
Qed.

(** A request simulates with one set of arguments only. *)
Lemma simulation_call_unique (vbt : Engine) (start_time end_time : pyfloat)
    (request : BacktestRequest) (args args' : SimArgs) :
  In (CallFromSignals args) (fst (run_backtest vbt start_time end_time request)) ->
  In (CallFromSignals args') (fst (run_backtest vbt start_time end_time request)) ->
  args = args'.
Proof.
  intros H H'.
  destruct (simulation_call_inv _ _ _ _ _ H) as (df0 & entries & exits & Hf & -> & Hcase).
  destruct (simulation_call_inv _ _ _ _ _ H')
    as (df0' & entries' & exits' & Hf' & -> & Hcase').
  rewrite Hf in Hf'. inversion Hf'. subst df0'. cbn zeta in *.
  destruct Hcase as [(fast & slow & H1 & H2 & H3 & H4 & Hty) | (rsi & H1 & H2 & H3 & Hty)];
    destruct Hcase'
      as [(fast' & slow' & H1' & H2' & H3' & H4' & Hty')
         | (rsi' & H1' & H2' & H3' & Hty')];
    try contradiction.
  - rewrite H1 in H1'. rewrite H2 in H2'. inversion H1'. inversion H2'. subst.
    rewrite H3 in H3'. rewrite H4 in H4'. inversion H3'. inversion H4'. reflexivity.
  - rewrite H1 in H1'. inversion H1'. subst.
    rewrite H2 in H2'. rewrite H3 in H3'. inversion H2'. inversion H3'. reflexivity.
Qed.

Lemma response_is_returned_or_500 (vbt : Engine) (start_time end_time : pyfloat)
    (request : BacktestRequest) :
  (exists result, snd (run_backtest vbt start_time end_time request) = Returned result) \/
  (exists detail, snd (run_backtest vbt start_time end_time request) = Failed 500 detail).
Proof.
  unfold run_backtest. cbn [snd].
  destruct (outcome (run_backtest_body vbt start_time end_time request)); simpl; eauto.
Qed.

(** X10: a simulated portfolio whose statistics lack one of the five keys
    the result reads (or whose [stats()] raises) never gives a result: the
    request ends in a 500. *)
Theorem X10_missing_statistic_is_a_500 (vbt : Engine) (start_time end_time : pyfloat)
    (request : BacktestRequest) (args : SimArgs) (pf : Portfolio) (key : string) :
  In (CallFromSignals args) (fst (run_backtest vbt start_time end_time request)) ->
  from_signals vbt args = Ok pf ->
  In key stats_keys ->
  (forall st x, stats pf = Ok st -> stats_get st key <> Ok x) ->
  exists detail, snd (run_backtest vbt start_time end_time request) = Failed 500 detail.
Proof.
  intros Hin Hpf Hkey Hmissing.
  destruct (response_is_returned_or_500 vbt start_time end_time request)
    as [[result Hret] | Hfail]; [exfalso | exact Hfail].
  destruct (run_backtest_returned _ _ _ _ _ Hret)
    as (df0 & args' & pf' & base & _ & _ & Hin' & Hpf' & Hsum & _).
  rewrite (simulation_call_unique _ _ _ _ _ _ Hin' Hin) in Hpf'.
  rewrite Hpf in Hpf'. inversion Hpf'. subst pf'.
  destruct (summarize_ok_inv _ _ _ Hsum)
    as (st & curve & tl & tr & trp & sr & md & mdp
        & Hst & _ & _ & Htr & Htrp & Hsr & Hmd & Hmdp & _).
  unfold stats_keys in Hkey. simpl in Hkey.
  destruct Hkey as [<- | [<- | [<- | [<- | [<- | []]]]]];
    eapply Hmissing; eassumption.
Qed.

Lemma X10_missing_statistic_is_a_500_witness :
  exists detail,
    snd (run_backtest
           {| MA_run := MA_run Sample.sample_engine;
              ma_above := ma_above Sample.sample_engine;
              ma_below := ma_below Sample.sample_engine;
              RSI_run := RSI_run Sample.sample_engine;
              rsi_below := rsi_below Sample.sample_engine;
              rsi_above := rsi_above Sample.sample_engine;
              from_signals := fun args =>
                Ok {| stats := Ok [("Sharpe Ratio", Fin 1)];
                      equity := [];
                      trades := Sample.sample_trades 0 |} |}
           (Fin 1) (Fin 3) (Sample.request_of Sample.two_candles "rsi"))
      = Failed 500 detail.
Proof.
  eapply (X10_missing_statistic_is_a_500 _ (Fin 1) (Fin 3)
            (Sample.request_of Sample.two_candles "rsi") _ _ "Total Return").
  - vm_compute. right. right. right. left. reflexivity.
  - reflexivity.
  - left. reflexivity.
  - intros st x Hst. inversion Hst. subst st. vm_compute. discriminate.
Defined.

(** ** The series handed to the simulation (X11, X12) *)









(** ** The script when a request fails (X13) *)



(** ** The equity curve mirrors the engine's equity (X14) *)

(** X14: the [equity_curve] of a returned result has exactly one entry per
    equity value of the simulated portfolio, in order; each entry is a dict
    with the two keys [timestamp] and [value], an integer timestamp and the
    engine's value unchanged. *)
Theorem X14_equity_curve_mirrors_equity (vbt : Engine) (start_time end_time : pyfloat)
    (request : BacktestRequest) (result : pydict) :
  snd (run_backtest vbt start_time end_time request) = Returned result ->
  exists args pf curve,
    In (CallFromSignals args) (fst (run_backtest vbt start_time end_time request)) /\
    from_signals vbt args = Ok pf /\
    dict_get result "equity_curve" = Some (VList curve) /\
    List.length curve = List.length (equity pf) /\
    forall i value, nth_error (equity pf) i = Some value ->
      exists point ts,
        nth_error curve i = Some (VDict point) /\
        dict_keys point = ["timestamp"; "value"] /\
        dict_get point "timestamp" = Some (VInt ts) /\
        dict_get point "value" = Some (VFloat value).
Proof.
  intros Hret.
  destruct (returned_parts _ _ _ _ _ Hret)
    as (df0 & args & pf & curve & tl & _ & Hin & Hpf & Hcurve & _ & Hget & _).
  destruct (equity_curve_shape _ _ _ Hcurve) as [Hlen Hpoints].
  exists args, pf, curve. repeat split; try assumption.
  intros i value Hi. destruct (Hpoints _ _ Hi) as (ts & _ & Hpoint).
  eexists _, ts. split; [exact Hpoint |]. repeat split; reflexivity.
Qed.

Lemma X14_equity_curve_mirrors_equity_witness :
  exists result curve,
    snd (run_backtest Sample.sample_engine (Fin 1) (Fin 3)
           (Sample.request_of Sample.two_candles "ma_crossover")) = Returned result /\
    dict_get result "equity_curve" = Some (VList curve) /\
    List.length curve = 2%nat.
Proof.
  destruct (X14_equity_curve_mirrors_equity Sample.sample_engine (Fin 1) (Fin 3)
              (Sample.request_of Sample.two_candles "ma_crossover") _
              ltac:(vm_compute; reflexivity))
    as (args & pf & curve & _ & _ & Hget & _ & _).
  eexists. exists curve. split; [vm_compute; reflexivity |]. split; [exact Hget |].
  vm_compute in Hget. inversion Hget. reflexivity.
Defined.
